(** * Resource-lifecycle polling in the Amazon Forecast sample notebooks

    A shallow embedding of the three pieces of control logic the notebooks
    contain:

    - the inline [while True] status loop of the what-if notebook
      (the two cells that wait for the TTS and RTS dataset import jobs);
    - [wait_till_delete] of the clean-up notebook;
    - the straight-line order in which the notebooks issue their create,
      wait and delete calls.

    The remote service is outside the program.  A run of a loop sees one
    answer per round trip, so the service is represented by the function
    that gives the answer to the k-th call of the run (k counted from 0),
    and the loops thread the call counter as explicit state.  What
    [time.sleep] does with the check time of [wait_till_delete], which the
    caller chooses, depends on the platform and is a parameter in the same
    way.  Every loop returns, next to its outcome, the list of effects it
    performed, in order. *)

From Stdlib Require Import String List ZArith Lia Bool Arith Sorted Floats.
Import ListNotations.
Local Open Scope string_scope.
Local Open Scope list_scope.

(** ** What crosses the boundary with the remote service *)

Module Remote.

(** Python exceptions, as far as the loops tell them apart.
    [ClientError code] is [botocore.exceptions.ClientError] with
    [e.response['Error']['Code'] == code]; [OtherError] is any exception
    that is not a [ClientError] and is none of the two built-ins below. *)
Inductive exn : Type :=
| ClientError (code : string)
| TimeoutError (msg : string)
| ValueError (msg : string)
| OtherError (name : string).

(** What one call of a caller-supplied operation does. *)
Inductive result (A : Type) : Type :=
| Returns (a : A)
| Raises (e : exn).
Arguments Returns {A} a.
Arguments Raises {A} e.

(** The response of a [describe_*] call: the loop reads only ['Status']. *)
Record snapshot : Type := mkSnapshot { Status : string; raw : string }.

(** Effects, in the order the code performs them.  [T] is the type of the
    number handed to [time.sleep]. *)
Inductive event_of (T : Type) : Type :=
| EvDescribe (r : result snapshot)  (* forecast.describe_dataset_import_job(...) *)
| EvUpdate (status : string)        (* status_indicator.update(status) *)
| EvEnd                             (* status_indicator.end() *)
| EvCall (r : result string)        (* callback() *)
| EvSleep (seconds : T)             (* time.sleep(seconds) *)
| EvPrint (text : string).          (* print(text) *)
Arguments EvDescribe {T} r.
Arguments EvUpdate {T} status.
Arguments EvEnd {T}.
Arguments EvCall {T} r.
Arguments EvSleep {T} seconds%_Z.
Arguments EvPrint {T} text.

(** The effects of the code that sleeps for a whole number of seconds. *)
Abbreviation event := (event_of Z).

(** How a run ends.  [OutOfFuel] is not a behaviour of the program: it says
    that the loop was still running when the bound on iterations was
    reached, and the trace returned with it is what had happened so far. *)
Inductive outcome (A : Type) : Type :=
| Done (a : A)
| Raise (e : exn)
| OutOfFuel.
Arguments Done {A} a.
Arguments Raise {A} e.
Arguments OutOfFuel {A}.

Definition is_describe {T : Type} (ev : event_of T) : bool :=
  match ev with EvDescribe _ => true | _ => false end.

Definition is_call {T : Type} (ev : event_of T) : bool :=
  match ev with EvCall _ => true | _ => false end.

Definition is_sleep {T : Type} (ev : event_of T) : bool :=
  match ev with EvSleep _ => true | _ => false end.

Definition count {T : Type} (p : event_of T -> bool) (tr : list (event_of T))
  : nat :=
  length (filter p tr).

(** The answers the callback gave, in order. *)
Fixpoint calls {T : Type} (tr : list (event_of T)) : list (result string) :=
  match tr with
  | [] => []
  | EvCall r :: tr' => r :: calls tr'
  | _ :: tr' => calls tr'
  end.

End Remote.
Import Remote.

(** ** The status loop of the what-if notebook

<<
    status_indicator = util.StatusIndicator()
    while True:
        status = forecast.describe_dataset_import_job( ... )['Status']
        status_indicator.update(status)
        if status in ('ACTIVE', 'CREATE_FAILED'): break
        time.sleep(10)
    status_indicator.end()
>>
    The TTS and the RTS cell differ only in the job they describe.
    [util.StatusIndicator] prints the progress; its two calls are recorded
    as effects and have no part in the control flow. *)

Module Poller.

(** [status in ('ACTIVE', 'CREATE_FAILED')] *)
Definition is_terminal (status : string) : bool :=
  (status =? "ACTIVE") || (status =? "CREATE_FAILED").

(** The [while True] loop.  [k] counts the describe calls made so far. *)
Fixpoint poll_loop (fuel : nat) (describe : nat -> result snapshot) (k : nat)
  : outcome string * list event :=
  match fuel with
  | O => (OutOfFuel, [])
  | S fuel' =>
      match describe k with
      | Raises e => (Raise e, [EvDescribe (Raises e)])
      | Returns s =>
          let status := Status s in
          if is_terminal status
          then (Done status, [EvDescribe (Returns s); EvUpdate status])
          else
            let (o, tr) := poll_loop fuel' describe (S k) in
            (o, EvDescribe (Returns s) :: EvUpdate status :: EvSleep 10 :: tr)
      end
  end.

(** The whole cell: the loop, then [status_indicator.end()].  The value of
    a completed run is what the variable [status] holds afterwards. *)
Definition wait_for_import (fuel : nat) (describe : nat -> result snapshot)
  : outcome string * list event :=
  let (o, tr) := poll_loop fuel describe 0 in
  match o with
  | Done status => (Done status, tr ++ [EvEnd])
  | _ => (o, tr)
  end.

(** The effects of one round that did not end the loop. *)
Definition round (r : result snapshot) : list event :=
  match r with
  | Returns s => [EvDescribe (Returns s); EvUpdate (Status s); EvSleep 10]
  | Raises e => [EvDescribe (Raises e)]
  end.

(** The effects of the rounds [k, k+1, ..., k+n-1]. *)
Definition rounds (describe : nat -> result snapshot) (k n : nat) : list event :=
  flat_map (fun i => round (describe i)) (seq k n).

(** The k-th poll gave a snapshot, and its state is neither of the two
    states the loop knows. *)
Definition in_progress (describe : nat -> result snapshot) (k : nat) : Prop :=
  exists s, describe k = Returns s /\
            Status s <> "ACTIVE" /\ Status s <> "CREATE_FAILED".

End Poller.

(** ** [wait_till_delete] of the clean-up notebook

<<
    def wait_till_delete(callback, check_time = 5, timeout = None):

        elapsed_time = 0
        while timeout is None or elapsed_time < timeout:
            try:
                out = callback()
            except botocore.exceptions.ClientError as e:
                # When given the resource not found exception, deletion has occured
                if e.response['Error']['Code'] == 'ResourceNotFoundException':
                    print('Successful delete')
                    return
                else:
                    raise
            time.sleep(check_time)  # units of seconds
            elapsed_time += check_time

        raise TimeoutError( "Forecast resource deletion timed-out." )
>>
    [check_time], [timeout] (unless it is [None]) and [elapsed_time] are
    Python numbers, ints or floats; the model is over any type of numbers
    that has what the function uses.  [timeout = None] is [None]. *)

Module Cleanup.

(** What [wait_till_delete] does with its numbers: it starts [elapsed_time]
    from the int [0], adds to it ([+=]), compares it ([<]), and hands
    [check_time] to [time.sleep], which tells a negative length and a zero
    length from the others. *)
Class Number (T : Type) : Type := {
  num_zero : T;
  num_add : T -> T -> T;
  num_lt : T -> T -> bool;
  num_eq : T -> T -> bool
}.

(** Python ints: unbounded and exact.  These are the numbers of every call
    in the notebooks, which all use the defaults. *)
#[global] Instance py_int : Number Z :=
  {| num_zero := 0%Z; num_add := Z.add; num_lt := Z.ltb; num_eq := Z.eqb |}.

(** Python floats: binary64, where [+] rounds.  The int [0] that
    [elapsed_time] starts from is as good as [0.0]: [0 + x] is [0.0 + x] and
    [0 < x] is [0.0 < x] for every float [x].  An int time-out that goes
    with a float check time stands for its float, which is exact up to
    2^53. *)
#[global] Instance py_float : Number PrimFloat.float :=
  {| num_zero := 0%float; num_add := PrimFloat.add;
     num_lt := PrimFloat.ltb; num_eq := PrimFloat.eqb |}.

Definition ResourceNotFoundException : string := "ResourceNotFoundException".

Definition not_found : result string :=
  Raises (ClientError ResourceNotFoundException).

Definition timed_out : exn :=
  TimeoutError "Forecast resource deletion timed-out.".

(** [timeout is None or elapsed_time < timeout] *)
Definition loop_condition {T : Type} `{Number T} (timeout : option T)
  (elapsed_time : T) : bool :=
  match timeout with
  | None => true
  | Some t => num_lt elapsed_time t
  end.

(** [time.sleep(seconds)].  CPython converts [seconds] to the unit of its
    clock, refuses a negative length with [ValueError], and sleeps.  Whether
    the conversion and the sleep succeed depends on the platform and on its
    clock: a length that does not fit the clock is refused (where the clock
    counts nanoseconds in 64 bits, with [OverflowError] from 9223372037
    seconds on, negative or not, and with [OSError] somewhat below that, the
    more so the longer the machine is up).  That part is a parameter of the
    model, like the answers of the service: [refuses k seconds] is the
    exception, if any, with which the platform refuses [seconds] at the
    k-th sleep of the run.  A length of zero is never refused. *)
Definition platform (T : Type) : Type := nat -> T -> option exn.

Definition time_sleep {T : Type} `{Number T} (refuses : platform T) (k : nat)
  (seconds : T) : option exn :=
  if num_eq seconds num_zero then None
  else
    match refuses k seconds with
    | Some e => Some e
    | None =>
        if num_lt seconds num_zero
        then Some (ValueError "sleep length must be non-negative")
        else None
    end.

(** [time.sleep] takes [seconds] whenever it is asked. *)
Definition accepts {T : Type} `{Number T} (refuses : platform T) (seconds : T)
  : Prop :=
  forall k, time_sleep refuses k seconds = None.

(** The [while] loop.  [k] counts the callback invocations made so far; the
    k-th sleep is the one that follows the k-th invocation.  A sleep that
    [time.sleep] refuses is recorded all the same, as the attempt it is. *)
Fixpoint wait_loop {T : Type} `{Number T} (refuses : platform T) (fuel : nat)
  (callback : nat -> result string) (check_time : T) (timeout : option T)
  (k : nat) (elapsed_time : T) : outcome unit * list (event_of T) :=
  match fuel with
  | O => (OutOfFuel, [])
  | S fuel' =>
      if loop_condition timeout elapsed_time then
        match callback k with
        | Raises (ClientError code) =>
            if code =? ResourceNotFoundException
            then (Done tt, [EvCall (Raises (ClientError code));
                            EvPrint "Successful delete"])
            else (Raise (ClientError code), [EvCall (Raises (ClientError code))])
        | Raises e => (Raise e, [EvCall (Raises e)])
        | Returns out =>
            match time_sleep refuses k check_time with
            | Some e => (Raise e, [EvCall (Returns out); EvSleep check_time])
            | None =>
                let (o, tr) :=
                  wait_loop refuses fuel' callback check_time timeout (S k)
                            (num_add elapsed_time check_time) in
                (o, EvCall (Returns out) :: EvSleep check_time :: tr)
            end
        end
      else (Raise timed_out, [])
  end.

Definition wait_till_delete {T : Type} `{Number T} (refuses : platform T)
  (fuel : nat) (callback : nat -> result string) (check_time : T)
  (timeout : option T) : outcome unit * list (event_of T) :=
  wait_loop refuses fuel callback check_time timeout 0 num_zero.
Arguments wait_till_delete {T H} refuses fuel callback check_time%_Z timeout.

(** The defaults of the signature. *)
Definition default_check_time : Z := 5.
Definition default_timeout : option Z := None.

(** The effects of the iterations [k, ..., k+n-1] when the callback
    returned normally in each of them. *)
Definition retries {T : Type} (callback : nat -> result string)
  (check_time : T) (k n : nat) : list (event_of T) :=
  flat_map (fun i => [EvCall (callback i); EvSleep check_time]) (seq k n).
Arguments retries {T} callback check_time%_Z k n.

(** [elapsed_time] after [n] more additions of [check_time]. *)
Fixpoint elapsed_after {T : Type} `{Number T} (elapsed_time check_time : T)
  (n : nat) : T :=
  match n with
  | O => elapsed_time
  | S n' => elapsed_after (num_add elapsed_time check_time) check_time n'
  end.

(** With whole seconds, the number of iterations a loop with no early exit
    makes before [elapsed_time < timeout] fails: the least [n] with
    [n * c >= t]. *)
Definition iterations_until (check_time timeout : Z) : nat :=
  Z.to_nat ((timeout + check_time - 1) / check_time).


End Cleanup.

(** ** The order of the lifecycle calls in the notebooks

    The notebooks are straight-line scripts: a cell's call completes before
    the next one is issued.  A script is the list of the calls the cells make
    to the forecast client, in the order of the cells. *)

Module Lifecycle.

Inductive kind : Type :=
| DatasetGroup | Dataset | ImportJob | Predictor | Forecast | ExportJob.

(** dataset group -> datasets -> import jobs -> predictor -> forecast -> export *)
Definition kind_chain : list kind :=
  [DatasetGroup; Dataset; ImportJob; Predictor; Forecast; ExportJob].

Definition rank (k : kind) : nat :=
  match k with
  | DatasetGroup => 0 | Dataset => 1 | ImportJob => 2
  | Predictor => 3 | Forecast => 4 | ExportJob => 5
  end.

Inductive action (H : Type) : Type :=
| Create (h : H)          (* forecast.create_*( ... ) *)
| Link (h : H)            (* forecast.update_dataset_group(DatasetGroupArn = h, ...) *)
| Wait (h : H)            (* poll describe_* of h until ACTIVE or CREATE_FAILED *)
| Describe (h : H)        (* one forecast.describe_*( ... ) *)
| Stop (h : H)            (* forecast.stop_resource(ResourceArn = h) *)
| Delete (h : H)          (* forecast.delete_*( ... ), called once and not waited for *)
| DeleteAndWait (h : H).  (* wait_till_delete(lambda: forecast.delete_*( ... )) *)
Arguments Create {H} h.
Arguments Link {H} h.
Arguments Wait {H} h.
Arguments Describe {H} h.
Arguments Stop {H} h.
Arguments Delete {H} h.
Arguments DeleteAndWait {H} h.

Section Orders.
Context {H : Type} (eqb : H -> H -> bool).

Definition action_eqb (a b : action H) : bool :=
  match a, b with
  | Create x, Create y | Link x, Link y | Wait x, Wait y
  | Describe x, Describe y | Stop x, Stop y | Delete x, Delete y
  | DeleteAndWait x, DeleteAndWait y => eqb x y
  | _, _ => false
  end.

(** The resources in the order their create call is issued. *)
Definition creation_order (script : list (action H)) : list H :=
  flat_map (fun a => match a with Create h => [h] | _ => [] end) script.

(** The resources in the order their delete call is first issued. *)
Definition deletion_order (script : list (action H)) : list H :=
  flat_map
    (fun a => match a with Delete h | DeleteAndWait h => [h] | _ => [] end)
    script.

End Orders.

(** Position of the first element that satisfies [p]. *)
Fixpoint index_of {A : Type} (p : A -> bool) (l : list A) : option nat :=
  match l with
  | [] => None
  | x :: l' => if p x then Some 0 else option_map S (index_of p l')
  end.

(** Both occur, and the first [x] is strictly before the first [y]. *)
Definition before {A : Type} (eqb : A -> A -> bool) (x y : A) (l : list A) : bool :=
  match index_of (eqb x) l, index_of (eqb y) l with
  | Some i, Some j => (i <? j)%nat
  | _, _ => false
  end.

(** The create-then-wait cycle of [h1] is over when [h2] is created: if the
    create call of [h1] comes before that of [h2], then [h1] is waited for
    after its create call and before the create call of [h2]. *)
Definition create_then_wait {H : Type} (eqb : H -> H -> bool)
  (script : list (action H)) (h1 h2 : H) : Prop :=
  before (action_eqb eqb) (Create h1) (Create h2) script = true ->
  before (action_eqb eqb) (Create h1) (Wait h1) script = true /\
  before (action_eqb eqb) (Wait h1) (Create h2) script = true.

(** Consecutive duplicates removed. *)
Fixpoint runs_of (l : list kind) : list kind :=
  match l with
  | [] => []
  | k :: l' =>
      match l' with
      | k' :: _ => if (rank k =? rank k')%nat then runs_of l' else k :: runs_of l'
      | [] => [k]
      end
  end.

(** No resource is followed by one of a later kind. *)
Definition kind_by_kind {H : Type} (kind_of : H -> kind) (order : list H) : Prop :=
  StronglySorted (fun x y => rank (kind_of y) <= rank (kind_of x)) order.

End Lifecycle.
Import Lifecycle.

(** *** The what-if notebook (RTS/TTS filling options) *)

Module WhatIf.

(** The variables that hold the identifiers the create calls return. *)
Inductive handle : Type :=
| dataset_group_arn
| tts_dataset_arn
| rts_dataset_arn
| tts_dataset_import_job_arn
| rts_dataset_import_job_arn
| predictor_arn_1
| forecast_arn_1
| predictor_arn_2
| forecast_arn_2.

Definition kind_of (h : handle) : kind :=
  match h with
  | dataset_group_arn => DatasetGroup
  | tts_dataset_arn | rts_dataset_arn => Dataset
  | tts_dataset_import_job_arn | rts_dataset_import_job_arn => ImportJob
  | predictor_arn_1 | predictor_arn_2 => Predictor
  | forecast_arn_1 | forecast_arn_2 => Forecast
  end.

Definition code (h : handle) : nat :=
  match h with
  | dataset_group_arn => 0 | tts_dataset_arn => 1 | rts_dataset_arn => 2
  | tts_dataset_import_job_arn => 3 | rts_dataset_import_job_arn => 4
  | predictor_arn_1 => 5 | forecast_arn_1 => 6
  | predictor_arn_2 => 7 | forecast_arn_2 => 8
  end.

Definition eqb (a b : handle) : bool := (code a =? code b)%nat.

(** What a resource needs to exist when it is created: the identifiers its
    create call passes ([DatasetArn], [DatasetGroupArn], [PredictorArn]),
    and, where the call passes none, the link of the kind chain (a dataset
    is attached to the dataset group, a predictor is trained on the
    imported data of the group). *)
Definition dependsOn (h : handle) : list handle :=
  match h with
  | dataset_group_arn => []
  | tts_dataset_arn => [dataset_group_arn]
  | rts_dataset_arn => [dataset_group_arn]
  | tts_dataset_import_job_arn => [tts_dataset_arn]
  | rts_dataset_import_job_arn => [rts_dataset_arn]
  | predictor_arn_1 =>
      [dataset_group_arn; tts_dataset_import_job_arn; rts_dataset_import_job_arn]
  | forecast_arn_1 => [predictor_arn_1]
  | predictor_arn_2 =>
      [dataset_group_arn; tts_dataset_import_job_arn; rts_dataset_import_job_arn]
  | forecast_arn_2 => [predictor_arn_2]
  end.

(** The cells from "Create DatasetGroup and Datasets" to the second
    forecast.  The two import jobs are waited for by the inline loop
    ([Poller.wait_for_import]), predictors and forecasts by [util.wait]. *)
Definition notebook : list (action handle) :=
  [ Create dataset_group_arn
  ; Create tts_dataset_arn
  ; Create rts_dataset_arn
  ; Link dataset_group_arn
  ; Create tts_dataset_import_job_arn
  ; Create rts_dataset_import_job_arn
  ; Wait tts_dataset_import_job_arn
  ; Wait rts_dataset_import_job_arn
  ; Create predictor_arn_1
  ; Wait predictor_arn_1
  ; Describe predictor_arn_1
  ; Create forecast_arn_1
  ; Wait forecast_arn_1
  ; Describe forecast_arn_1
  ; Create predictor_arn_2
  ; Wait predictor_arn_2
  ; Describe predictor_arn_2
  ; Create forecast_arn_2
  ; Wait forecast_arn_2
  ; Describe forecast_arn_2 ].

(** The cells of "Resource cleanup".  The notebook ships them commented
    out, under the heading "For clean-up, this should be uncommented." *)
Definition cleanup_cells : list (action handle) :=
  [ DeleteAndWait forecast_arn_1
  ; DeleteAndWait forecast_arn_2
  ; DeleteAndWait predictor_arn_1
  ; DeleteAndWait predictor_arn_2
  ; DeleteAndWait tts_dataset_import_job_arn
  ; DeleteAndWait rts_dataset_import_job_arn
  ; DeleteAndWait tts_dataset_arn
  ; DeleteAndWait rts_dataset_arn
  ; DeleteAndWait dataset_group_arn ].

Definition created : list handle := creation_order notebook.
Definition deleted : list handle := deletion_order cleanup_cells.

(** Resources whose creation is followed by a poll. *)
Definition polled (h : handle) : bool := (2 <=? rank (kind_of h))%nat.

End WhatIf.

(** *** The notebook "Building Your Predictor"

    The notebook shows the stop call on a predictor and on a forecast: each
    is created, stopped and deleted, and then created again under the same
    variable. *)

Module BuildPredictor.

(** The values of [predictor_arn_deep_ar] and [forecast_arn_deep_ar]: the
    first value of each belongs to the resource that is stopped and
    deleted, the second to the one that is kept. *)
Inductive handle : Type :=
| stopped_predictor_arn_deep_ar
| predictor_arn_deep_ar
| stopped_forecast_arn_deep_ar
| forecast_arn_deep_ar.

Definition kind_of (h : handle) : kind :=
  match h with
  | stopped_predictor_arn_deep_ar | predictor_arn_deep_ar => Predictor
  | stopped_forecast_arn_deep_ar | forecast_arn_deep_ar => Forecast
  end.

Definition code (h : handle) : nat :=
  match h with
  | stopped_predictor_arn_deep_ar => 0 | predictor_arn_deep_ar => 1
  | stopped_forecast_arn_deep_ar => 2 | forecast_arn_deep_ar => 3
  end.

Definition eqb (a b : handle) : bool := (code a =? code b)%nat.

(** [PredictorArn = predictor_arn_deep_ar] in both [create_forecast]
    calls, at a time when the variable holds the second predictor.  The
    dataset group the predictors are trained on comes from an earlier
    notebook. *)
Definition dependsOn (h : handle) : list handle :=
  match h with
  | stopped_predictor_arn_deep_ar | predictor_arn_deep_ar => []
  | stopped_forecast_arn_deep_ar | forecast_arn_deep_ar => [predictor_arn_deep_ar]
  end.

Definition stopped (h : handle) : bool :=
  match h with
  | stopped_predictor_arn_deep_ar | stopped_forecast_arn_deep_ar => true
  | _ => false
  end.

Definition notebook : list (action handle) :=
  [ Create stopped_predictor_arn_deep_ar
  ; Stop stopped_predictor_arn_deep_ar
  ; DeleteAndWait stopped_predictor_arn_deep_ar
  ; Create predictor_arn_deep_ar
  ; Wait predictor_arn_deep_ar
  ; Describe predictor_arn_deep_ar
  ; Create stopped_forecast_arn_deep_ar
  ; Stop stopped_forecast_arn_deep_ar
  ; DeleteAndWait stopped_forecast_arn_deep_ar
  ; Create forecast_arn_deep_ar
  ; Wait forecast_arn_deep_ar
  ; Describe forecast_arn_deep_ar ].

Definition created : list handle := creation_order notebook.
Definition deleted : list handle := deletion_order notebook.

(** The reverse of the order of creation, for the resources that are
    deleted at all. *)
Definition reverse_of_creation : list handle :=
  filter (fun h => existsb (eqb h) deleted) (rev created).

End BuildPredictor.

(** *** The clean-up notebook of the immersion-day workshop *)

Module CleanupNotebook.

(** The shared variables the notebook restores with [%store -r]. *)
Inductive handle : Type :=
| deeparp_export_forecast_arn
| arima_export_forecast_arn
| prophet_export_forecast_arn
| prophet_forecast_arn
| arima_forecast_arn
| deeparp_forecast_arn
| arima_arn
| prophet_arn
| deeparp_arn
| ds_import_job_arn
| target_datasetArn
| datasetGroupArn.

(** The kind is that of the delete call the identifier is passed to. *)
Definition kind_of (h : handle) : kind :=
  match h with
  | deeparp_export_forecast_arn | arima_export_forecast_arn
  | prophet_export_forecast_arn => ExportJob
  | prophet_forecast_arn | arima_forecast_arn | deeparp_forecast_arn => Forecast
  | arima_arn | prophet_arn | deeparp_arn => Predictor
  | ds_import_job_arn => ImportJob
  | target_datasetArn => Dataset
  | datasetGroupArn => DatasetGroup
  end.

Definition code (h : handle) : nat :=
  match h with
  | deeparp_export_forecast_arn => 0 | arima_export_forecast_arn => 1
  | prophet_export_forecast_arn => 2 | prophet_forecast_arn => 3
  | arima_forecast_arn => 4 | deeparp_forecast_arn => 5
  | arima_arn => 6 | prophet_arn => 7 | deeparp_arn => 8
  | ds_import_job_arn => 9 | target_datasetArn => 10 | datasetGroupArn => 11
  end.

Definition eqb (a b : handle) : bool := (code a =? code b)%nat.

(** The deletion cells, top to bottom.  The exports are deleted in a [for]
    loop by a bare [delete_forecast_export_job]; everything else goes
    through [wait_till_delete] with the default arguments. *)
Definition deletion_cells : list (action handle) :=
  [ Delete deeparp_export_forecast_arn
  ; Delete arima_export_forecast_arn
  ; Delete prophet_export_forecast_arn
  ; DeleteAndWait prophet_forecast_arn
  ; DeleteAndWait arima_forecast_arn
  ; DeleteAndWait deeparp_forecast_arn
  ; DeleteAndWait arima_arn
  ; DeleteAndWait prophet_arn
  ; DeleteAndWait deeparp_arn
  ; DeleteAndWait ds_import_job_arn
  ; DeleteAndWait target_datasetArn
  ; DeleteAndWait datasetGroupArn ].

Definition deleted : list handle := deletion_order deletion_cells.

(** The creating notebooks are not part of this development, so the graph
    is taken as coarse as the kind chain allows: a resource may depend on
    any resource of an earlier kind. *)
Definition may_depend_on (a b : handle) : bool :=
  (rank (kind_of b) <? rank (kind_of a))%nat.

End CleanupNotebook.

(** ** Stubs for the remote service

    A stub answers the k-th call with the k-th entry of a list, and raises
    once the list is used up, like a mock with a list of side effects. *)

Module Stub.

Definition describe_of (states : list string) (k : nat) : result snapshot :=
  match nth_error states k with
  | Some state => Returns (mkSnapshot state "{}")
  | None => Raises (OtherError "StopIteration")
  end.

Definition callback_of (answers : list (result string)) (k : nat) : result string :=
  match nth_error answers k with
  | Some r => r
  | None => Raises (OtherError "StopIteration")
  end.

(** A platform whose [time.sleep] refuses what does not fit a clock of
    2^63 nanoseconds, as CPython does, and nothing else. *)
Definition clock64 : Cleanup.platform Z := fun _ seconds =>
  if (9223372037 <=? Z.abs seconds)%Z then Some (OtherError "OverflowError")
  else None.

(** The same for float seconds; a NaN is refused as well. *)
Definition float_clock64 : Cleanup.platform PrimFloat.float := fun _ seconds =>
  if PrimFloat.ltb (PrimFloat.abs seconds) 9223372037%float then None
  else if PrimFloat.eqb seconds seconds then Some (OtherError "OverflowError")
  else Some (ValueError "Invalid value NaN (not a number)").

(** The floats that Python reads [0.1] and [0.8] as. *)
Definition tenth : PrimFloat.float := 0x1.999999999999ap-4%float.
Definition eight_tenths : PrimFloat.float := 0x1.999999999999ap-1%float.

(** A delete call that is always accepted. *)
Definition always_accepted (k : nat) : result string := Returns "{}".

Definition active : snapshot := mkSnapshot "ACTIVE" "{}".
Definition create_failed : snapshot := mkSnapshot "CREATE_FAILED" "{}".
Definition create_in_progress : snapshot := mkSnapshot "CREATE_IN_PROGRESS" "{}".

Definition resource_in_use : result string :=
  Raises (ClientError "ResourceInUseException").

End Stub.

(** ** Measures of a trace *)

Module Trace.

(** The lengths of the sleeps of a trace, in whole seconds, added up. *)
Fixpoint slept (tr : list event) : Z :=
  match tr with
  | [] => 0
  | EvSleep seconds :: tr' => seconds + slept tr'
  | _ :: tr' => slept tr'
  end.

Definition is_print {T : Type} (ev : event_of T) : bool :=
  match ev with EvPrint _ => true | _ => false end.

Definition is_end {T : Type} (ev : event_of T) : bool :=
  match ev with EvEnd => true | _ => false end.

End Trace.

(** ** The deletion cells of the clean-up notebook

    A cell is a sequence of statements; a statement that raises ends the
    cell, and the statements after it are not executed. *)

Module CleanupCells.

(** The trace of one [wait_till_delete(lambda: ...)] statement. *)
Definition statement_trace (refuses : Cleanup.platform Z) (fuel : nat)
  (callback : nat -> result string) : list event :=
  snd (Cleanup.wait_till_delete refuses fuel callback Cleanup.default_check_time
                                Cleanup.default_timeout).

(** A cell made of [wait_till_delete(lambda: forecast.delete_*( ... ))]
    statements, each with the default arguments ("Delete the Foreacst",
    "Delete the Predictor", ...).  A statement is given by its callback; the
    result lists the trace of every statement that was started. *)
Fixpoint run_statements (refuses : Cleanup.platform Z) (fuel : nat)
  (callbacks : list (nat -> result string))
  : outcome unit * list (list event) :=
  match callbacks with
  | [] => (Done tt, [])
  | callback :: rest =>
      let (o, tr) :=
        Cleanup.wait_till_delete refuses fuel callback
          Cleanup.default_check_time Cleanup.default_timeout in
      match o with
      | Done _ =>
          let (o', trs) := run_statements refuses fuel rest in
          (o', tr :: trs)
      | _ => (o, [tr])
      end
  end.

(** [for job in exports: forecast.delete_forecast_export_job(ForecastExportJobArn=job)]:
    [delete i job] is what the service answers to the i-th call of the loop,
    made for [job].  The result logs the calls made. *)
Fixpoint delete_each {H : Type} (delete : nat -> H -> result string) (i : nat)
  (exports : list H) : outcome unit * list (H * result string) :=
  match exports with
  | [] => (Done tt, [])
  | job :: rest =>
      match delete i job with
      | Raises e => (Raise e, [(job, Raises e)])
      | Returns out =>
          let (o, log) := delete_each delete (S i) rest in
          (o, (job, Returns out) :: log)
      end
  end.

(** The cell "Delete the Exports":
<<
    exports = forecast.list_forecast_export_jobs()
    exports = [deeparp_export_forecast_arn, arima_export_forecast_arn, prophet_export_forecast_arn]
    for job in exports:
        forecast.delete_forecast_export_job(ForecastExportJobArn=job)
>>
    The answer of the list call is overwritten at once. *)
Definition delete_exports {H : Type} (list_forecast_export_jobs : result string)
  (delete : nat -> H -> result string) (exports : list H)
  : outcome unit * list (H * result string) :=
  match list_forecast_export_jobs with
  | Raises e => (Raise e, [])
  | Returns _ => delete_each delete 0 exports
  end.

End CleanupCells.

(** ** The names the what-if notebook gives to what it creates

<<
    version = '0'
    project = "whatif_and_filling"+"_"+version
    key_tts = "%s/tts.csv" % project
    key_rts = "%s/rts.csv" % project
>>
    and [project + "_dsg"], [project + "_tts"], ... in the create calls. *)

Module WhatIfNames.

Definition project (version : string) : string :=
  ("whatif_and_filling" ++ "_" ++ version)%string.

Definition key_tts (version : string) : string :=
  (project version ++ "/tts.csv")%string.

Definition key_rts (version : string) : string :=
  (project version ++ "/rts.csv")%string.

(** ["s3://" + bucket_name + "/" + key] *)
Definition s3_data_path (bucket_name key : string) : string :=
  ("s3://" ++ bucket_name ++ "/" ++ key)%string.

(** The suffix of the name passed to the create call of a resource. *)
Definition suffix (h : WhatIf.handle) : string :=
  match h with
  | WhatIf.dataset_group_arn => "_dsg"
  | WhatIf.tts_dataset_arn => "_tts"
  | WhatIf.rts_dataset_arn => "_rts"
  | WhatIf.tts_dataset_import_job_arn => "_tts_import"
  | WhatIf.rts_dataset_import_job_arn => "_rts_import1"
  | WhatIf.predictor_arn_1 => "_predictor_1"
  | WhatIf.forecast_arn_1 => "_forecast_1"
  | WhatIf.predictor_arn_2 => "_predictor_2"
  | WhatIf.forecast_arn_2 => "_forecast_2"
  end.

Definition name_of (version : string) (h : WhatIf.handle) : string :=
  (project version ++ suffix h)%string.

End WhatIfNames.

(** ** [plot_forecast] of the what-if notebook

<<
    def plot_forecast( single_item_forecast, label, color, hatch ):

        x = []
        y_p10 = []
        y_p50 = []
        y_p90 = []

        # visually connect last actual value with forecasts
        df_connect = df_item_actual[ df_item_actual["timestamp"]==training_data_period[1] ].reset_index(drop=True)
        x.append( datetime.datetime.strptime( df_connect.at[ 0, "timestamp" ], "%Y-%m-%d" ) )
        y_p10.append( df_connect.at[0,"demand"] )
        y_p50.append( df_connect.at[0,"demand"] )
        y_p90.append( df_connect.at[0,"demand"] )

        for p10, p50, p90 in zip( single_item_forecast["p10"], single_item_forecast["p50"], single_item_forecast["p90"] ):

            date = datetime.datetime.strptime(p50["Timestamp"],"%Y-%m-%dT00:00:00").date()
            x.append(date)

            y_p10.append(p10["Value"])
            y_p50.append(p50["Value"])
            y_p90.append(p90["Value"])

        plt.plot( x, y_p50, label="%s p50" % label, color=color )
        plt.fill_between( x, y_p10, y_p90, label="%s p10-p90" % label, color=color, alpha=0.2, hatch=hatch )
>>
    The function is nested in [plot_compare]: [df_item_actual] and
    [training_data_period] are variables of the enclosing scopes.  The
    model returns the four lists that are handed to [plt.plot] and
    [plt.fill_between].  The plotted numbers are only moved around, so their
    type is a parameter, and so are the parsed dates and [strptime]. *)

Module Plot.

Section PlotForecast.
Context {V D : Type}.

(** [datetime.datetime.strptime(text, format)]; it raises on a text that
    does not have the format. *)
Variable strptime : string -> string -> result D.

(** A row of [df_tts]. *)
Record row : Type := mkRow { item_id : string; timestamp : string; demand : V }.

(** An entry of a quantile of [response["Forecast"]["Predictions"]]. *)
Record prediction : Type := mkPrediction { Timestamp : string; Value : V }.

(** [x] holds a [datetime] for the connecting point and a [date] for each
    prediction. *)
Inductive xvalue : Type :=
| OfDatetime (d : D)
| OfDate (d : D).

Record series : Type :=
  mkSeries { x : list xvalue; y_p10 : list V; y_p50 : list V; y_p90 : list V }.

Definition KeyError : exn := OtherError "KeyError".

(** [zip(a, b, c)] stops with the shortest list. *)
Fixpoint zip3 {A B C : Type} (a : list A) (b : list B) (c : list C)
  : list (A * B * C) :=
  match a, b, c with
  | u :: a', v :: b', w :: c' => (u, v, w) :: zip3 a' b' c'
  | _, _, _ => []
  end.

(** The [for] loop. *)
Fixpoint extend (triples : list (prediction * prediction * prediction))
  (acc : series) : result series :=
  match triples with
  | [] => Returns acc
  | (p10, p50, p90) :: rest =>
      match strptime (Timestamp p50) "%Y-%m-%dT00:00:00" with
      | Raises e => Raises e
      | Returns date =>
          extend rest
            {| x := x acc ++ [OfDate date];
               y_p10 := y_p10 acc ++ [Value p10];
               y_p50 := y_p50 acc ++ [Value p50];
               y_p90 := y_p90 acc ++ [Value p90] |}
      end
  end.

(** [single_item_forecast] is a dict from the name of a quantile to its
    predictions; a missing key raises [KeyError]. *)
Definition plot_forecast (df_item_actual : list row)
  (training_data_period : string * string)
  (single_item_forecast : string -> option (list prediction)) : result series :=
  let df_connect :=
    filter (fun r => timestamp r =? snd training_data_period) df_item_actual in
  match df_connect with
  | [] => Raises KeyError
  | first :: _ =>
      match strptime (timestamp first) "%Y-%m-%d" with
      | Raises e => Raises e
      | Returns connect =>
          let start :=
            {| x := [OfDatetime connect];
               y_p10 := [demand first];
               y_p50 := [demand first];
               y_p90 := [demand first] |} in
          match single_item_forecast "p10" with
          | None => Raises KeyError
          | Some p10s =>
              match single_item_forecast "p50" with
              | None => Raises KeyError
              | Some p50s =>
                  match single_item_forecast "p90" with
                  | None => Raises KeyError
                  | Some p90s => extend (zip3 p10s p50s p90s) start
                  end
              end
          end
      end
  end.

(** The length of the shortest of three lists: the number of rounds of a
    loop over their [zip]. *)
Definition shortest {A B C : Type} (a : list A) (b : list B) (c : list C) : nat :=
  Nat.min (length a) (Nat.min (length b) (length c)).

(** [df_tts[ df_tts["item_id"]==item_id ]] of [plot_compare]. *)
Definition rows_of_item (df_tts : list row) (item : string) : list row :=
  filter (fun r => item_id r =? item) df_tts.

End PlotForecast.

Arguments row V : clear implicits.
Arguments prediction V : clear implicits.
Arguments xvalue D : clear implicits.
Arguments series V D : clear implicits.

End Plot.

(** A sample for [plot_forecast]: demands are integers, a parsed date is
    its text, and [strptime] refuses nothing but the empty text. *)

Module PlotStub.

Definition strptime (text format : string) : result string :=
  if text =? "" then Raises (ValueError "time data '' does not match format")
  else Returns text.

Definition df_tts : list (Plot.row Z) :=
  [ Plot.mkRow "item_132" "2019-11-01" 7%Z;
    Plot.mkRow "item_151" "2019-12-01" 4%Z;
    Plot.mkRow "item_234" "2019-11-01" 3%Z;
    Plot.mkRow "item_132" "2019-12-01" 9%Z ].

Definition training_data_period : string * string :=
  ("2019-11-01", "2019-12-01").

Definition predictions (quantile : string) : option (list (Plot.prediction Z)) :=
  if quantile =? "p10" then
    Some [Plot.mkPrediction "2020-01-01T00:00:00" 5%Z;
          Plot.mkPrediction "2020-02-01T00:00:00" 6%Z]
  else if quantile =? "p50" then
    Some [Plot.mkPrediction "2020-01-01T00:00:00" 8%Z;
          Plot.mkPrediction "2020-02-01T00:00:00" 9%Z;
          Plot.mkPrediction "" 10%Z]
  else if quantile =? "p90" then
    Some [Plot.mkPrediction "2020-01-01T00:00:00" 11%Z;
          Plot.mkPrediction "2020-02-01T00:00:00" 12%Z]
  else None.

(** What is plotted for item_132. *)
Definition plotted : Plot.series Z string :=
  {| Plot.x := [Plot.OfDatetime "2019-12-01";
                Plot.OfDate "2020-01-01T00:00:00";
                Plot.OfDate "2020-02-01T00:00:00"];
     Plot.y_p10 := [9; 5; 6]%Z;
     Plot.y_p50 := [9; 8; 9]%Z;
     Plot.y_p90 := [9; 11; 12]%Z |}.

(** The same forecast with the third entry of p50 dropped and other
    timestamps in p10 and p90. *)
Definition predictions' (quantile : string) : option (list (Plot.prediction Z)) :=
  if quantile =? "p10" then
    Some [Plot.mkPrediction "" 5%Z; Plot.mkPrediction "" 6%Z]
  else if quantile =? "p50" then
    Some [Plot.mkPrediction "2020-01-01T00:00:00" 8%Z;
          Plot.mkPrediction "2020-02-01T00:00:00" 9%Z]
  else if quantile =? "p90" then
    Some [Plot.mkPrediction "x" 11%Z; Plot.mkPrediction "y" 12%Z]
  else None.

End PlotStub.

(** ** The item check of the item-metadata notebook

<<
    target_items = set(time_series_df["item"].tolist())
    metadata_items = set(item_metadata_df["item"].tolist())
    ...
    assert len(target_items - metadata_items) == 0, "items do not match"
>>
*)

Module ItemCheck.

(** [set(l)]: the elements of [l], each once. *)
Definition set_of (l : list string) : list string := nodup string_dec l.

(** [a - b] on sets. *)
Definition difference (a b : list string) : list string :=
  filter (fun i => negb (existsb (String.eqb i) b)) a.

Definition AssertionError : exn := OtherError "AssertionError: items do not match".

Definition check_items (time_series_items item_metadata_items : list string)
  : outcome unit :=
  let target_items := set_of time_series_items in
  let metadata_items := set_of item_metadata_items in
  if (length (difference target_items metadata_items) =? 0)%nat
  then Done tt
  else Raise AssertionError.

End ItemCheck.

(** * Properties *)

(** ** The status loop *)

Module PollerFacts.
Import Poller.

Lemma is_terminal_true (status : string) :
  is_terminal status = true <-> status = "ACTIVE" \/ status = "CREATE_FAILED".
Proof.
  unfold is_terminal. rewrite orb_true_iff, !String.eqb_eq. tauto.
Qed.

Lemma is_terminal_false (status : string) :
  is_terminal status = false <-> status <> "ACTIVE" /\ status <> "CREATE_FAILED".
Proof.
  unfold is_terminal. rewrite orb_false_iff, !String.eqb_neq. tauto.
Qed.

Lemma rounds_S (describe : nat -> result snapshot) (k n : nat) :
  rounds describe k (S n) = round (describe k) ++ rounds describe (S k) n.
Proof. reflexivity. Qed.

Lemma rounds_snoc (describe : nat -> result snapshot) (k n : nat) :
  rounds describe k (S n) = rounds describe k n ++ round (describe (k + n)).
Proof.
  unfold rounds. rewrite seq_S, flat_map_app. simpl. now rewrite app_nil_r.
Qed.

(** While the snapshots are in progress the loop goes round: [n] such
    snapshots cost [n] units of fuel and leave the loop at poll [k + n]. *)
Lemma poll_loop_in_progress (describe : nat -> result snapshot) (n : nat) :
  forall k fuel,
    (forall i, (k <= i < k + n)%nat -> in_progress describe i) ->
    poll_loop (n + fuel) describe k =
      (fst (poll_loop fuel describe (k + n)),
       rounds describe k n ++ snd (poll_loop fuel describe (k + n))).
Proof.
  induction n as [|n IH]; intros k fuel Hpre.
  - rewrite Nat.add_0_r. simpl. now destruct (poll_loop fuel describe k).
  - destruct (Hpre k ltac:(lia)) as (s & Hk & Ha & Hf).
    assert (Hnt : is_terminal (Status s) = false) by now apply is_terminal_false.
    rewrite rounds_S. simpl. rewrite Hk, Hnt. simpl.
    rewrite (IH (S k) fuel) by (intros i Hi; apply Hpre; lia).
    replace (S k + n)%nat with (k + S n)%nat by lia. reflexivity.
Qed.

Lemma count_app (p : event -> bool) (l l' : list event) :
  count p (l ++ l') = (count p l + count p l')%nat.
Proof. unfold count. now rewrite filter_app, length_app. Qed.

Lemma count_rounds (describe : nat -> result snapshot) (n : nat) :
  forall k,
    (forall i, (k <= i < k + n)%nat -> in_progress describe i) ->
    count is_describe (rounds describe k n) = n /\
    count is_sleep (rounds describe k n) = n.
Proof.
  induction n as [|n IH]; intros k Hpre; [now split|].
  destruct (Hpre k ltac:(lia)) as (s & Hk & _).
  destruct (IH (S k)) as [Hd Hs]; [intros i Hi; apply Hpre; lia|].
  rewrite rounds_S, !count_app, Hd, Hs, Hk. now split.
Qed.

(** The run whose first terminal snapshot is the one of poll [n]. *)
Lemma wait_for_import_terminal (describe : nat -> result snapshot) (n : nat)
  (s : snapshot) (fuel : nat) :
  (forall i, (i < n)%nat -> in_progress describe i) ->
  describe n = Returns s ->
  is_terminal (Status s) = true ->
  (n < fuel)%nat ->
  wait_for_import fuel describe =
    (Done (Status s),
     rounds describe 0 n ++ [EvDescribe (Returns s); EvUpdate (Status s); EvEnd]).
Proof.
  intros Hpre Hn Ht Hfuel. unfold wait_for_import.
  replace fuel with (n + S (fuel - S n))%nat by lia.
  rewrite poll_loop_in_progress by (intros i Hi; apply Hpre; lia).
  simpl. rewrite Hn, Ht. simpl. now rewrite <- app_assoc.
Qed.

Lemma count_terminal_run (describe : nat -> result snapshot) (n : nat)
  (s : snapshot) :
  (forall i, (i < n)%nat -> in_progress describe i) ->
  let tr := rounds describe 0 n ++
            [EvDescribe (Returns s); EvUpdate (Status s); EvEnd] in
  count is_describe tr = S n /\ count is_sleep tr = n.
Proof.
  intros Hpre tr. subst tr.
  destruct (count_rounds describe n 0) as [Hd Hs];
    [intros i Hi; apply Hpre; lia|].
  rewrite !count_app, Hd, Hs. unfold count. simpl. split; lia.
Qed.

(** A run that has ended does not depend on the bound it was given. *)
Lemma poll_loop_more_fuel (describe : nat -> result snapshot) (fuel more : nat) :
  forall k,
    fst (poll_loop fuel describe k) <> OutOfFuel ->
    poll_loop (fuel + more) describe k = poll_loop fuel describe k.
Proof.
  induction fuel as [|fuel IH]; intros k; simpl; [congruence|].
  destruct (describe k) as [s|e]; [|reflexivity].
  destruct (is_terminal (Status s)); [reflexivity|].
  specialize (IH (S k)).
  destruct (poll_loop fuel describe (S k)) as [o tr]. simpl in *.
  intros Ho. now rewrite (IH Ho).
Qed.

(** C1.  If the first [ACTIVE] snapshot is the one of the N-th poll and
    every earlier poll gave a snapshot in neither of the two terminal
    states, then the cell completes (whatever bound of at least N
    iterations is put on the loop) with [status = 'ACTIVE'], the state of
    that N-th snapshot; it has made exactly N describe calls and slept
    exactly N - 1 times, and nothing but [status_indicator.update] and
    [status_indicator.end] follows the N-th describe call.  For N = 1 the
    run does not sleep at all. *)
Theorem poll_success (describe : nat -> result snapshot) (N : nat)
  (s : snapshot) (fuel : nat) :
  (1 <= N)%nat ->
  describe (N - 1)%nat = Returns s ->
  Status s = "ACTIVE" ->
  (forall i, (i < N - 1)%nat -> in_progress describe i) ->
  (N <= fuel)%nat ->
  let run := wait_for_import fuel describe in
  fst run = Done "ACTIVE" /\
  snd run = rounds describe 0 (N - 1) ++
            [EvDescribe (Returns s); EvUpdate "ACTIVE"; EvEnd] /\
  count is_describe (snd run) = N /\
  count is_sleep (snd run) = (N - 1)%nat.
Proof.
  intros HN Hs Hact Hpre Hfuel run. subst run.
  rewrite (wait_for_import_terminal describe (N - 1) s fuel Hpre Hs)
    by (try lia; apply is_terminal_true; now left).
  destruct (count_terminal_run describe (N - 1) s Hpre) as [Hd Hsl].
  simpl in *. rewrite Hact in *. repeat split; trivial; lia.
Qed.

(** C8.  Snapshots in a state other than [ACTIVE] and [CREATE_FAILED] keep
    the loop going: after [n] of them in a row followed by one more, [s],
    the run has slept for 10 seconds after each, has not ended, and its
    next effect is the describe call number [n + 2]. *)
Theorem unrecognized_states_continue (describe : nat -> result snapshot)
  (n : nat) (s : snapshot) (fuel : nat) :
  (forall i, (i < n)%nat -> in_progress describe i) ->
  describe n = Returns s ->
  Status s <> "ACTIVE" ->
  Status s <> "CREATE_FAILED" ->
  exists tr,
    snd (wait_for_import (n + 2 + fuel) describe) =
      rounds describe 0 n ++
      [EvDescribe (Returns s); EvUpdate (Status s); EvSleep 10;
       EvDescribe (describe (S n))] ++ tr.
Proof.
  intros Hpre Hn Ha Hf. unfold wait_for_import.
  assert (Hall : forall i, (0 <= i < 0 + S n)%nat -> in_progress describe i).
  { intros i Hi. destruct (Nat.eq_dec i n) as [->|Hne].
    - now exists s.
    - apply Hpre; lia. }
  replace (n + 2 + fuel)%nat with (S n + S fuel)%nat by lia.
  rewrite (poll_loop_in_progress describe (S n) 0 (S fuel) Hall).
  rewrite rounds_snoc. simpl (0 + _)%nat. rewrite Hn. simpl round.
  set (rest := poll_loop (S fuel) describe (S n)).
  assert (Hrest : exists tr, snd rest = EvDescribe (describe (S n)) :: tr).
  { subst rest. simpl. destruct (describe (S n)) as [s'|e]; [|now eexists].
    destruct (is_terminal (Status s')); [now eexists|].
    destruct (poll_loop fuel describe (S (S n))). now eexists. }
  destruct Hrest as [tr Htr].
  destruct (fst rest) eqn:Ho.
  - exists (tr ++ [EvEnd]). simpl. rewrite Htr, <- !app_assoc. reflexivity.
  - exists tr. simpl. rewrite Htr, <- !app_assoc. reflexivity.
  - exists tr. simpl. rewrite Htr, <- !app_assoc. reflexivity.
Qed.

(** C1, on the stub that answers CREATE_IN_PROGRESS twice and then ACTIVE. *)
Lemma poll_success_witness :
  let run :=
    wait_for_import 3
      (Stub.describe_of ["CREATE_IN_PROGRESS"; "CREATE_IN_PROGRESS"; "ACTIVE"]) in
  fst run = Done "ACTIVE" /\
  snd run =
    rounds (Stub.describe_of ["CREATE_IN_PROGRESS"; "CREATE_IN_PROGRESS"; "ACTIVE"])
           0 2 ++
    [EvDescribe (Returns Stub.active); EvUpdate "ACTIVE"; EvEnd] /\
  count is_describe (snd run) = 3%nat /\
  count is_sleep (snd run) = 2%nat.
Proof.
  apply (poll_success
           (Stub.describe_of ["CREATE_IN_PROGRESS"; "CREATE_IN_PROGRESS"; "ACTIVE"])
           3 Stub.active 3).
  - lia.
  - reflexivity.
  - reflexivity.
  - intros i Hi. exists Stub.create_in_progress.
    destruct i as [|[|i]]; [| |lia]; repeat split; discriminate.
  - lia.
Defined.

(** C8, on a stub whose first two answers are states the loop does not
    know. *)
Lemma unrecognized_states_continue_witness :
  exists tr,
    snd (wait_for_import (1 + 2 + 0)
           (Stub.describe_of ["CREATE_PENDING"; "DELETING"; "ACTIVE"])) =
      rounds (Stub.describe_of ["CREATE_PENDING"; "DELETING"; "ACTIVE"]) 0 1 ++
      [EvDescribe (Returns (mkSnapshot "DELETING" "{}")); EvUpdate "DELETING";
       EvSleep 10; EvDescribe (Returns Stub.active)] ++ tr.
Proof.
  apply (unrecognized_states_continue
           (Stub.describe_of ["CREATE_PENDING"; "DELETING"; "ACTIVE"])
           1 (mkSnapshot "DELETING" "{}") 0).
  - intros i Hi. exists (mkSnapshot "CREATE_PENDING" "{}").
    destruct i as [|i]; [|lia]. repeat split; discriminate.
  - reflexivity.
  - simpl. discriminate.
  - simpl. discriminate.
Defined.

(** C2, as stated, fails: on the stub that answers CREATE_IN_PROGRESS and
    then CREATE_FAILED the cell completes normally after two describe calls,
    with [status = 'CREATE_FAILED'], and no bound on the iterations makes it
    raise anything. *)
Lemma poll_failure_raises_nothing :
  wait_for_import 2 (Stub.describe_of ["CREATE_IN_PROGRESS"; "CREATE_FAILED"]) =
    (Done "CREATE_FAILED",
     [EvDescribe (Returns Stub.create_in_progress); EvUpdate "CREATE_IN_PROGRESS";
      EvSleep 10;
      EvDescribe (Returns Stub.create_failed); EvUpdate "CREATE_FAILED";
      EvEnd]) /\
  forall fuel e,
    fst (wait_for_import fuel
           (Stub.describe_of ["CREATE_IN_PROGRESS"; "CREATE_FAILED"])) <> Raise e.
Proof.
  split; [reflexivity|].
  intros [|[|fuel]] e; discriminate.
Qed.

(** C2, amended.  If the first terminal snapshot is the [CREATE_FAILED] of
    the N-th poll, the cell stops polling there, after exactly N describe
    calls and N - 1 sleeps, and completes normally: the failure is what the
    variable [status] holds, no exception is raised. *)
Theorem poll_failure_completes (describe : nat -> result snapshot) (N : nat)
  (s : snapshot) (fuel : nat) :
  (1 <= N)%nat ->
  describe (N - 1)%nat = Returns s ->
  Status s = "CREATE_FAILED" ->
  (forall i, (i < N - 1)%nat -> in_progress describe i) ->
  (N <= fuel)%nat ->
  let run := wait_for_import fuel describe in
  fst run = Done "CREATE_FAILED" /\
  (forall e, fst run <> Raise e) /\
  snd run = rounds describe 0 (N - 1) ++
            [EvDescribe (Returns s); EvUpdate "CREATE_FAILED"; EvEnd] /\
  count is_describe (snd run) = N /\
  count is_sleep (snd run) = (N - 1)%nat.
Proof.
  intros HN Hs Hfail Hpre Hfuel run. subst run.
  rewrite (wait_for_import_terminal describe (N - 1) s fuel Hpre Hs)
    by (try lia; apply is_terminal_true; now right).
  destruct (count_terminal_run describe (N - 1) s Hpre) as [Hd Hsl].
  simpl in *. rewrite Hfail in *.
  repeat split; trivial; try lia. discriminate.
Qed.

Lemma poll_failure_completes_witness :
  let run :=
    wait_for_import 2 (Stub.describe_of ["CREATE_IN_PROGRESS"; "CREATE_FAILED"]) in
  fst run = Done "CREATE_FAILED" /\
  (forall e, fst run <> Raise e) /\
  snd run =
    rounds (Stub.describe_of ["CREATE_IN_PROGRESS"; "CREATE_FAILED"]) 0 1 ++
    [EvDescribe (Returns Stub.create_failed); EvUpdate "CREATE_FAILED"; EvEnd] /\
  count is_describe (snd run) = 2%nat /\
  count is_sleep (snd run) = 1%nat.
Proof.
  apply (poll_failure_completes
           (Stub.describe_of ["CREATE_IN_PROGRESS"; "CREATE_FAILED"])
           2 Stub.create_failed 2).
  - lia.
  - reflexivity.
  - reflexivity.
  - intros i Hi. exists Stub.create_in_progress.
    destruct i as [|i]; [|lia]. repeat split; discriminate.
  - lia.
Defined.

End PollerFacts.

(** ** [wait_till_delete] *)

Module CleanupFacts.
Import Cleanup.

Lemma retries_S {T : Type} (callback : nat -> result string) (c : T)
  (k n : nat) :
  retries callback c k (S n) =
    EvCall (callback k) :: EvSleep c :: retries callback c (S k) n.
Proof. reflexivity. Qed.

Lemma calls_app {T : Type} (l l' : list (event_of T)) :
  calls (l ++ l') = calls l ++ calls l'.
Proof.
  induction l as [|ev l IH]; [reflexivity|].
  destruct ev; simpl; now rewrite IH.
Qed.

Lemma count_calls {T : Type} (tr : list (event_of T)) :
  count is_call tr = length (calls tr).
Proof.
  unfold count. induction tr as [|ev tr IH]; [reflexivity|].
  destruct ev; simpl; now rewrite ?IH.
Qed.

Lemma count_cons {T : Type} (p : event_of T -> bool) (ev : event_of T)
  (tr : list (event_of T)) :
  count p (ev :: tr) = ((if p ev then 1 else 0) + count p tr)%nat.
Proof. unfold count. simpl. now destruct (p ev). Qed.

Lemma calls_retries {T : Type} (callback : nat -> result string) (c : T)
  (n : nat) :
  forall k, calls (retries callback c k n) = map callback (seq k n).
Proof.
  induction n as [|n IH]; intros k; [reflexivity|].
  rewrite retries_S. simpl. now rewrite IH.
Qed.

Lemma count_retries {T : Type} (callback : nat -> result string) (c : T)
  (n : nat) :
  forall k,
    count is_call (retries callback c k n) = n /\
    count is_sleep (retries callback c k n) = n.
Proof.
  induction n as [|n IH]; intros k; [now split|].
  destruct (IH (S k)) as [Hc Hs].
  rewrite retries_S, !count_cons, Hc, Hs. now split.
Qed.


(** As long as the callback returns normally, [time.sleep] takes the check
    time and the loop condition holds, the loop goes round: call, sleep,
    add [check_time]. *)
Lemma wait_loop_retries {T : Type} {num : Number T}
  {refuses : platform T} (callback : nat -> result string) (c : T)
  (timeout : option T) (n : nat) :
  forall k elapsed fuel,
    (forall i, (k <= i < k + n)%nat -> exists out, callback i = Returns out) ->
    (forall i, (k <= i < k + n)%nat -> time_sleep refuses i c = None) ->
    (forall j, (j < n)%nat ->
               loop_condition timeout (elapsed_after elapsed c j) = true) ->
    wait_loop refuses (n + fuel) callback c timeout k elapsed =
      (fst (wait_loop refuses fuel callback c timeout (k + n)
                      (elapsed_after elapsed c n)),
       retries callback c k n ++
       snd (wait_loop refuses fuel callback c timeout (k + n)
                      (elapsed_after elapsed c n))).
Proof.
  induction n as [|n IH]; intros k elapsed fuel Hret Hsleep Hcond.
  - rewrite Nat.add_0_r. cbn [elapsed_after retries seq flat_map app Nat.add].
    now destruct (wait_loop refuses fuel callback c timeout k elapsed).
  - destruct (Hret k ltac:(lia)) as [out Hk].
    pose proof (Hcond 0%nat ltac:(lia)) as H0. cbn [elapsed_after] in H0.
    rewrite retries_S. cbn [Nat.add wait_loop elapsed_after].
    rewrite H0, Hk, (Hsleep k ltac:(lia)).
    rewrite (IH (S k) (num_add elapsed c) fuel).
    + replace (S k + n)%nat with (k + S n)%nat by lia. reflexivity.
    + intros i Hi. apply Hret. lia.
    + intros i Hi. apply Hsleep. lia.
    + intros j Hj. apply (Hcond (S j)). lia.
Qed.



Lemma iterations_until_least (c t : Z) (j : nat) :
  (0 < c)%Z -> (j < iterations_until c t)%nat -> (Z.of_nat j * c < t)%Z.
Proof.
  intros Hc Hj. unfold iterations_until in Hj.
  pose proof (Z.mul_div_le (t + c - 1) c Hc) as Hle.
  assert (Hq : (Z.of_nat j < (t + c - 1) / c)%Z) by lia.
  nia.
Qed.

(** An invocation that raises is the last effect but for the print that
    goes with the not-found code: the run ends there, by returning if the
    exception is the not-found client error and by raising that very
    exception otherwise.  All earlier invocations returned normally, and
    each was followed by one sleep. *)
Lemma raise_ends_run {T : Type} {num : Number T}
  {refuses : platform T} (callback : nat -> result string) (c : T)
  (timeout : option T) (fuel : nat) :
  forall k elapsed n e,
    let run := wait_loop refuses fuel callback c timeout k elapsed in
    nth_error (calls (snd run)) n = Some (Raises e) ->
    length (calls (snd run)) = S n /\
    count is_sleep (snd run) = n /\
    (forall j, (j < n)%nat ->
               exists out, nth_error (calls (snd run)) j = Some (Returns out)) /\
    exists pre,
      (e = ClientError ResourceNotFoundException /\
       fst run = Done tt /\
       snd run = pre ++ [EvCall (Raises e); EvPrint "Successful delete"]) \/
      (e <> ClientError ResourceNotFoundException /\
       fst run = Raise e /\
       snd run = pre ++ [EvCall (Raises e)]).
Proof.
  induction fuel as [|fuel IH]; intros k elapsed n e; simpl.
  - now destruct n.
  - destruct (loop_condition timeout elapsed); [|now destruct n].
    destruct (callback k) as [out|e0].
    + destruct (time_sleep refuses k c) as [es|].
      * simpl. destruct n as [|[|n]]; discriminate.
      * specialize (IH (S k) (num_add elapsed c)).
        destruct (wait_loop refuses fuel callback c timeout (S k)
            (num_add elapsed c))
          as [o tr]. simpl in *.
        destruct n as [|n]; [discriminate|]. simpl. intros Hn.
        destruct (IH n e Hn) as (Hlen & Hsl & Hret & pre & Hend).
        rewrite !count_cons, Hsl. simpl. repeat split; try lia.
        -- intros [|j] Hj; [now exists out|]. apply Hret. lia.
        -- exists (EvCall (Returns out) :: EvSleep c :: pre).
           destruct Hend as [(He & Ho & Htr)|(He & Ho & Htr)];
             [left|right]; repeat split; trivial; now rewrite Htr.
    + assert (Hone : forall (o : outcome unit) (post : list (event_of T)),
                 nth_error (calls (EvCall (Raises e0) :: post)) n = Some (Raises e) ->
                 calls post = [] -> n = 0%nat /\ e0 = e).
      { intros o post Hn Hpost. simpl in Hn. rewrite Hpost in Hn.
        destruct n as [|[|n]]; try discriminate. now inversion Hn. }
      destruct e0 as [code|msg|msg|name].
      * destruct (code =? ResourceNotFoundException) eqn:Hcode; simpl; intros Hn.
        -- apply String.eqb_eq in Hcode. subst code.
           destruct (Hone (Done tt) [EvPrint "Successful delete"] Hn eq_refl)
             as [-> <-].
           repeat split; trivial; [intros j Hj; lia|].
           exists []. now left.
        -- apply String.eqb_neq in Hcode.
           destruct (Hone (Done tt) [] Hn eq_refl) as [-> <-].
           repeat split; trivial; [intros j Hj; lia|].
           exists []. right. repeat split; trivial. congruence.
      * simpl. intros Hn.
        destruct (Hone (Done tt) [] Hn eq_refl) as [-> <-].
        repeat split; trivial; [intros j Hj; lia|].
        exists []. right. repeat split; trivial. discriminate.
      * simpl. intros Hn.
        destruct (Hone (Done tt) [] Hn eq_refl) as [-> <-].
        repeat split; trivial; [intros j Hj; lia|].
        exists []. right. repeat split; trivial. discriminate.
      * simpl. intros Hn.
        destruct (Hone (Done tt) [] Hn eq_refl) as [-> <-].
        repeat split; trivial; [intros j Hj; lia|].
        exists []. right. repeat split; trivial. discriminate.
Qed.

(** A run that has ended does not depend on the bound it was given. *)
Lemma wait_loop_more_fuel {T : Type} {num : Number T}
  {refuses : platform T} (callback : nat -> result string) (c : T)
  (timeout : option T) (fuel more : nat) :
  forall k elapsed,
    fst (wait_loop refuses fuel callback c timeout k elapsed) <> OutOfFuel ->
    wait_loop refuses (fuel + more) callback c timeout k elapsed =
    wait_loop refuses fuel callback c timeout k elapsed.
Proof.
  induction fuel as [|fuel IH]; intros k elapsed; simpl; [congruence|].
  destruct (loop_condition timeout elapsed); [|reflexivity].
  destruct (callback k) as [out|e]; [|reflexivity].
  destruct (time_sleep refuses k c) as [es|]; [reflexivity|].
  specialize (IH (S k) (num_add elapsed c)).
  destruct (wait_loop refuses fuel callback c timeout (S k)
      (num_add elapsed c)) as [o tr].
  simpl in *. intros Ho. now rewrite (IH Ho).
Qed.


(** A run that enters the loop starts with an invocation. *)
Lemma wait_loop_starts {T : Type} {num : Number T}
  {refuses : platform T} (callback : nat -> result string) (c : T)
  (timeout : option T) (fuel k : nat) (elapsed : T) :
  loop_condition timeout elapsed = true ->
  exists tr,
    snd (wait_loop refuses (S fuel) callback c timeout k elapsed) =
      EvCall (callback k) :: tr.
Proof.
  intros Hcond. simpl. rewrite Hcond.
  destruct (callback k) as [out|[code|msg|msg|name]]; try now eexists.
  - destruct (time_sleep refuses k c) as [es|]; [now eexists|].
    destruct (wait_loop refuses fuel callback c timeout (S k)
        (num_add elapsed c)).
    now eexists.
  - destruct (code =? ResourceNotFoundException); now eexists.
Qed.




(** With no time-out (or one not yet reached), a callback that returns
    normally N - 1 times before it raises the not-found client error, and
    a [time.sleep] that takes [check_time] those N - 1 times, the N-th
    invocation takes place and ends the run. *)
Lemma confirmed_after_retries {T : Type} {num : Number T}
  {refuses : platform T} (callback : nat -> result string) (c : T)
  (timeout : option T) (fuel N : nat) :
  (1 <= N)%nat ->
  (forall i, (i < N - 1)%nat -> exists out, callback i = Returns out) ->
  callback (N - 1)%nat = not_found ->
  (forall i, (i < N - 1)%nat -> time_sleep refuses i c = None) ->
  (forall j, (j < N)%nat ->
             loop_condition timeout (elapsed_after num_zero c j) = true) ->
  (N <= fuel)%nat ->
  wait_till_delete refuses fuel callback c timeout =
    (Done tt,
     retries callback c 0 (N - 1) ++
     [EvCall not_found; EvPrint "Successful delete"]).
Proof.
  intros HN Hret Hnf Hsleep Hcond Hfuel. unfold wait_till_delete.
  replace fuel with ((N - 1) + S (fuel - N))%nat by lia.
  rewrite wait_loop_retries.
  - rewrite Nat.add_0_l. cbn [wait_loop].
    rewrite (Hcond (N - 1)%nat) by lia. rewrite Hnf. reflexivity.
  - intros i Hi. apply Hret. lia.
  - intros i Hi. apply Hsleep. lia.
  - intros j Hj. apply Hcond. lia.
Qed.

(** C3.  Let the delete operation raise the client error with code
    ResourceNotFoundException when it is invoked for the N-th time, and
    return normally the N - 1 times before (so that it raises neither that
    error nor another one earlier).  Then [wait_till_delete] invokes it N
    times and returns, provided it gets as far as the N-th invocation:
    [time.sleep] takes [check_time] after each of the N - 1 returns, and the
    time-out, if there is one, is still ahead each time the loop condition
    is tested ([elapsed_time], which is [check_time] added once per sleep,
    is below it).  The run is N - 1 rounds of call and sleep, the N-th call
    and the print: exactly N invocations and N - 1 sleeps.  This holds for
    int and for float seconds. *)
Theorem delete_confirmed_on_call_N {T : Type} {num : Number T}
  {refuses : platform T} (callback : nat -> result string) (c : T)
  (timeout : option T) (fuel N : nat) :
  (1 <= N)%nat ->
  (forall i, (i < N - 1)%nat -> exists out, callback i = Returns out) ->
  callback (N - 1)%nat = not_found ->
  (forall i, (i < N - 1)%nat -> time_sleep refuses i c = None) ->
  (forall j, (j < N)%nat ->
             loop_condition timeout (elapsed_after num_zero c j) = true) ->
  (N <= fuel)%nat ->
  let run := wait_till_delete refuses fuel callback c timeout in
  run = (Done tt,
         retries callback c 0 (N - 1) ++
         [EvCall not_found; EvPrint "Successful delete"]) /\
  count is_call (snd run) = N /\
  count is_sleep (snd run) = (N - 1)%nat.
Proof.
  intros HN Hret Hnf Hsleep Hcond Hfuel run. subst run.
  rewrite (confirmed_after_retries callback c timeout fuel N) by assumption.
  split; [reflexivity|].
  destruct (count_retries callback c (N - 1) 0) as [Hcalls Hsleeps].
  cbn [snd]. unfold count in *. rewrite !filter_app, !length_app.
  rewrite Hcalls, Hsleeps. cbn. lia.
Qed.

Lemma delete_confirmed_on_call_N_witness :
  let callback := Stub.callback_of [Returns "{}"; Returns "{}"; not_found] in
  let run :=
    wait_till_delete Stub.clock64 3 callback default_check_time (Some 11%Z) in
  run = (Done tt,
         retries callback default_check_time 0 2 ++
         [EvCall not_found; EvPrint "Successful delete"]) /\
  count is_call (snd run) = 3%nat /\
  count is_sleep (snd run) = 2%nat.
Proof.
  apply (delete_confirmed_on_call_N (refuses:=Stub.clock64)
           (Stub.callback_of [Returns "{}"; Returns "{}"; not_found])
           default_check_time (Some 11%Z) 3 3).
  - lia.
  - intros [|[|i]] Hi; [now exists "{}" | now exists "{}" | lia].
  - reflexivity.
  - intros [|[|i]] Hi; [reflexivity | reflexivity | lia].
  - intros [|[|[|j]]] Hj; [reflexivity | reflexivity | reflexivity | lia].
  - lia.
Defined.




(** C7.  In any run of [wait_till_delete]: if an invocation of the callback
    raises a client error whose code is not ResourceNotFoundException, the
    run ends by raising that same client error; the invocation is the last
    effect of the run (no sleep, no further invocation, no print), and all
    invocations before it returned normally. *)
Theorem client_error_propagates {T : Type} {num : Number T}
  {refuses : platform T} (callback : nat -> result string) (c : T)
  (timeout : option T) (fuel n : nat) (code : string) :
  code <> ResourceNotFoundException ->
  let run := wait_till_delete refuses fuel callback c timeout in
  nth_error (calls (snd run)) n = Some (Raises (ClientError code)) ->
  fst run = Raise (ClientError code) /\
  count is_call (snd run) = S n /\
  (exists pre, snd run = pre ++ [EvCall (Raises (ClientError code))]) /\
  (forall j, (j < n)%nat ->
             exists out, nth_error (calls (snd run)) j = Some (Returns out)).
Proof.
  intros Hcode run Hnth. subst run. unfold wait_till_delete in *.
  destruct (raise_ends_run (refuses:=refuses) callback c timeout
      fuel 0 num_zero n _ Hnth)
    as (Hlen & _ & Hret & pre & [(He & _)|(_ & Ho & Htr)]).
  - congruence.
  - rewrite count_calls, Hlen. repeat split; trivial. now exists pre.
Qed.

Lemma client_error_propagates_witness :
  let run :=
    wait_till_delete Stub.clock64 5
      (Stub.callback_of
         [Returns "{}"; Raises (ClientError "ThrottlingException"); not_found])
      default_check_time default_timeout in
  fst run = Raise (ClientError "ThrottlingException") /\
  count is_call (snd run) = 2%nat /\
  (exists pre,
      snd run = pre ++ [EvCall (Raises (ClientError "ThrottlingException"))]) /\
  (forall j, (j < 1)%nat ->
             exists out, nth_error (calls (snd run)) j = Some (Returns out)).
Proof.
  apply (client_error_propagates
           (Stub.callback_of
              [Returns "{}"; Raises (ClientError "ThrottlingException"); not_found])
           default_check_time default_timeout 5 1 "ThrottlingException").
  - discriminate.
  - reflexivity.
Defined.




(** C5, as stated, fails: when the service rejects the delete call because
    the resource is still in use, [wait_till_delete] has made that remote
    call, once, and what it raises is the client error of the service. *)
Lemma delete_in_use_calls_remote :
  wait_till_delete Stub.clock64 1 (Stub.callback_of [Stub.resource_in_use])
                   default_check_time default_timeout =
    (Raise (ClientError "ResourceInUseException"), [EvCall Stub.resource_in_use]) /\
  count is_call
    (snd (wait_till_delete Stub.clock64 1 (Stub.callback_of [Stub.resource_in_use])
                           default_check_time default_timeout)) <> 0%nat.
Proof. split; [reflexivity|discriminate]. Qed.

(** C5, amended.  [wait_till_delete] checks nothing before it deletes:
    unless the time-out is already reached on entry, its first effect is
    the remote call; and if the service answers it with a client error
    other than not-found (ResourceInUseException, for one), the run is that
    one call and ends by raising that client error. *)
Theorem delete_attempt_is_unguarded {T : Type} {num : Number T}
  {refuses : platform T} (callback : nat -> result string) (c : T)
  (timeout : option T) (fuel : nat) :
  loop_condition timeout num_zero = true ->
  let run := wait_till_delete refuses (S fuel) callback c timeout in
  (exists tr, snd run = EvCall (callback 0%nat) :: tr) /\
  (forall code,
      callback 0%nat = Raises (ClientError code) ->
      code <> ResourceNotFoundException ->
      run = (Raise (ClientError code), [EvCall (Raises (ClientError code))])).
Proof.
  intros Hcond run. subst run. unfold wait_till_delete. split.
  - now apply wait_loop_starts.
  - intros code Hcall Hcode. simpl. rewrite Hcond, Hcall.
    apply String.eqb_neq in Hcode. now rewrite Hcode.
Qed.

Lemma delete_attempt_is_unguarded_witness :
  (exists tr,
      snd (wait_till_delete Stub.clock64 1 (Stub.callback_of [Stub.resource_in_use])
                            default_check_time default_timeout) =
        EvCall (Stub.callback_of [Stub.resource_in_use] 0%nat) :: tr) /\
  (forall code,
      Stub.callback_of [Stub.resource_in_use] 0%nat = Raises (ClientError code) ->
      code <> ResourceNotFoundException ->
      wait_till_delete Stub.clock64 1 (Stub.callback_of [Stub.resource_in_use])
                       default_check_time default_timeout =
        (Raise (ClientError code), [EvCall (Raises (ClientError code))])).
Proof.
  apply (delete_attempt_is_unguarded
           (Stub.callback_of [Stub.resource_in_use])
           default_check_time default_timeout 0).
  reflexivity.
Defined.

End CleanupFacts.

(** ** The order of the lifecycle calls *)

Module LifecycleFacts.

Section KindByKind.
Context {H : Type} (eqb : H -> H -> bool) (kind_of : H -> kind).
Hypothesis eqb_eq : forall x y, eqb x y = true <-> x = y.

Lemma index_of_In (x : H) (l : list H) :
  In x l -> exists i, index_of (eqb x) l = Some i.
Proof.
  induction l as [|y l IH]; simpl; [contradiction|].
  intros [->|Hin].
  - exists 0. now rewrite (proj2 (eqb_eq x x) eq_refl).
  - destruct (eqb x y); [now exists 0|].
    destruct (IH Hin) as [i ->]. now exists (S i).
Qed.

Lemma before_cons (a b x : H) (l : list H) :
  eqb a x = false -> eqb b x = false ->
  before eqb a b (x :: l) = before eqb a b l.
Proof.
  intros Ha Hb. unfold before. simpl. rewrite Ha, Hb.
  destruct (index_of (eqb a) l), (index_of (eqb b) l); reflexivity.
Qed.

(** Deleting kind by kind, latest kind first, deletes every resource
    before any resource of an earlier kind, hence before everything it can
    depend on in a graph whose edges follow the kind chain. *)
Lemma kind_by_kind_before (order : list H) (a b : H) :
  kind_by_kind kind_of order ->
  In a order -> In b order ->
  rank (kind_of b) < rank (kind_of a) ->
  before eqb a b order = true.
Proof.
  intros Hsorted. induction Hsorted as [|x l Hl IH Hx]; [contradiction|].
  intros Ha Hb Hrank.
  destruct (eqb a x) eqn:Eax.
  - apply eqb_eq in Eax. subst x.
    destruct (eqb b a) eqn:Eba.
    + apply eqb_eq in Eba. subst b. lia.
    + destruct Hb as [->|Hb]; [lia|].
      destruct (index_of_In b l Hb) as [j Hj].
      unfold before. simpl.
      now rewrite (proj2 (eqb_eq a a) eq_refl), Eba, Hj.
  - assert (Hal : In a l).
    { destruct Ha as [->|Ha]; [|assumption].
      now rewrite (proj2 (eqb_eq a a) eq_refl) in Eax. }
    destruct (eqb b x) eqn:Ebx.
    + apply eqb_eq in Ebx. subst x.
      rewrite Forall_forall in Hx. specialize (Hx a Hal). simpl in Hx. lia.
    + rewrite before_cons by assumption. apply IH; trivial.
      destruct Hb as [->|Hb]; [|assumption].
      now rewrite (proj2 (eqb_eq b b) eq_refl) in Ebx.
Qed.

End KindByKind.

Lemma whatif_eqb_eq (x y : WhatIf.handle) : WhatIf.eqb x y = true <-> x = y.
Proof.
  unfold WhatIf.eqb. rewrite Nat.eqb_eq.
  split; [|now intros ->]. destruct x, y; simpl; congruence.
Qed.

Lemma cleanup_eqb_eq (x y : CleanupNotebook.handle) :
  CleanupNotebook.eqb x y = true <-> x = y.
Proof.
  unfold CleanupNotebook.eqb. rewrite Nat.eqb_eq.
  split; [|now intros ->]. destruct x, y; simpl; congruence.
Qed.

Lemma cleanup_kind_by_kind :
  kind_by_kind CleanupNotebook.kind_of CleanupNotebook.deleted.
Proof.
  unfold kind_by_kind. cbv [CleanupNotebook.deleted deletion_order
    CleanupNotebook.deletion_cells flat_map app].
  repeat (constructor; [|repeat constructor; simpl; lia]).
  constructor.
Qed.

Lemma cleanup_all_deleted (h : CleanupNotebook.handle) :
  In h CleanupNotebook.deleted.
Proof. destruct h; simpl; tauto. Qed.

(** C4, as stated, fails: the clean-up cells of the what-if notebook do not
    delete in the reverse of the order of creation.  The two forecasts, the
    two predictors, the two import jobs and the two datasets are each
    deleted in the order they were created.  Nor does "Building Your
    Predictor": it deletes the stopped predictor and then the stopped
    forecast, which is the order in which it created them. *)
Lemma deletion_not_exact_reverse :
  (BuildPredictor.deleted =
     [ BuildPredictor.stopped_predictor_arn_deep_ar;
       BuildPredictor.stopped_forecast_arn_deep_ar ] /\
   BuildPredictor.reverse_of_creation =
     [ BuildPredictor.stopped_forecast_arn_deep_ar;
       BuildPredictor.stopped_predictor_arn_deep_ar ] /\
   BuildPredictor.deleted <> BuildPredictor.reverse_of_creation) /\
  WhatIf.created =
    [ WhatIf.dataset_group_arn; WhatIf.tts_dataset_arn; WhatIf.rts_dataset_arn;
      WhatIf.tts_dataset_import_job_arn; WhatIf.rts_dataset_import_job_arn;
      WhatIf.predictor_arn_1; WhatIf.forecast_arn_1;
      WhatIf.predictor_arn_2; WhatIf.forecast_arn_2 ] /\
  WhatIf.deleted =
    [ WhatIf.forecast_arn_1; WhatIf.forecast_arn_2;
      WhatIf.predictor_arn_1; WhatIf.predictor_arn_2;
      WhatIf.tts_dataset_import_job_arn; WhatIf.rts_dataset_import_job_arn;
      WhatIf.tts_dataset_arn; WhatIf.rts_dataset_arn;
      WhatIf.dataset_group_arn ] /\
  WhatIf.deleted <> rev WhatIf.created.
Proof. repeat split; discriminate. Qed.

(** C4, amended.  In the what-if notebook every resource is created after
    all the resources it depends on, and the clean-up cells delete every
    resource before all the resources it depends on.  The clean-up notebook
    deletes kind by kind along the reverse of the kind chain (exports,
    forecasts, predictors, import job, dataset, dataset group), so every
    resource is deleted before any resource of an earlier kind.  In
    "Building Your Predictor" every resource is created after the one it
    depends on, and nothing that is deleted has a dependent. *)
Theorem lifecycle_order :
  (forall a b, In b (BuildPredictor.dependsOn a) ->
               before BuildPredictor.eqb b a BuildPredictor.created = true /\
               ~ In b BuildPredictor.deleted) /\
  (forall a b, In b (WhatIf.dependsOn a) ->
               before WhatIf.eqb b a WhatIf.created = true) /\
  (forall a b, In b (WhatIf.dependsOn a) ->
               before WhatIf.eqb a b WhatIf.deleted = true) /\
  runs_of (map WhatIf.kind_of WhatIf.deleted) =
    [Forecast; Predictor; ImportJob; Dataset; DatasetGroup] /\
  runs_of (map CleanupNotebook.kind_of CleanupNotebook.deleted) = rev kind_chain /\
  (forall a b, CleanupNotebook.may_depend_on a b = true ->
               before CleanupNotebook.eqb a b CleanupNotebook.deleted = true).
Proof.
  split; [|repeat split].
  - intros a b Hdep. destruct a; simpl in Hdep;
      repeat (destruct Hdep as [<-|Hdep];
              [split; [reflexivity|simpl; intuition discriminate]|]);
      contradiction.
  - intros a b Hdep. destruct a; simpl in Hdep;
      repeat (destruct Hdep as [<-|Hdep]; [reflexivity|]); contradiction.
  - intros a b Hdep. destruct a; simpl in Hdep;
      repeat (destruct Hdep as [<-|Hdep]; [reflexivity|]); contradiction.
  - intros a b Hdep.
    apply (kind_by_kind_before CleanupNotebook.eqb CleanupNotebook.kind_of
             cleanup_eqb_eq).
    + exact cleanup_kind_by_kind.
    + apply cleanup_all_deleted.
    + apply cleanup_all_deleted.
    + unfold CleanupNotebook.may_depend_on in Hdep. now apply Nat.ltb_lt.
Qed.

Lemma lifecycle_order_witness :
  before WhatIf.eqb WhatIf.predictor_arn_2 WhatIf.forecast_arn_2
         WhatIf.created = true /\
  before WhatIf.eqb WhatIf.forecast_arn_2 WhatIf.predictor_arn_2
         WhatIf.deleted = true /\
  before CleanupNotebook.eqb CleanupNotebook.prophet_forecast_arn
         CleanupNotebook.prophet_arn CleanupNotebook.deleted = true.
Proof.
  destruct lifecycle_order as (_ & Hcreate & Hdelete & _ & _ & Hkinds).
  split; [|split].
  - apply (Hcreate WhatIf.forecast_arn_2 WhatIf.predictor_arn_2).
    simpl. now left.
  - apply (Hdelete WhatIf.forecast_arn_2 WhatIf.predictor_arn_2).
    simpl. now left.
  - apply (Hkinds CleanupNotebook.prophet_forecast_arn CleanupNotebook.prophet_arn).
    reflexivity.
Defined.

(** C9, as stated, fails on the two import jobs of the what-if notebook:
    the create call of the RTS import job (position 5) is issued after that
    of the TTS import job (position 4) and before the wait for the TTS
    import job (position 6) has even begun. *)
Lemma imports_created_before_either_wait :
  nth_error WhatIf.notebook 4 = Some (Create WhatIf.tts_dataset_import_job_arn) /\
  nth_error WhatIf.notebook 5 = Some (Create WhatIf.rts_dataset_import_job_arn) /\
  nth_error WhatIf.notebook 6 = Some (Wait WhatIf.tts_dataset_import_job_arn) /\
  ~ create_then_wait WhatIf.eqb WhatIf.notebook
      WhatIf.tts_dataset_import_job_arn WhatIf.rts_dataset_import_job_arn.
Proof.
  repeat split. intros Hclaim.
  destruct (Hclaim eq_refl) as [_ Hwait]. discriminate Hwait.
Qed.

(** C9, amended.  In the what-if notebook:
    - for every resource that is polled (import job, predictor, forecast)
      and every other resource, except for the TTS import job against the
      RTS import job, the create-then-wait cycle of the earlier one is over
      when the later one is created;
    - so every polled resource has been waited for when a resource that
      depends on it is created;
    - the two import jobs are created one after the other, then waited for
      one after the other, and both waits are over when the first
      predictor is created;
    - the dataset group and the datasets are never waited for.
    In "Building Your Predictor" the create-then-wait cycle of the
    predictor and of the forecast that are kept is over when the next
    resource is created; the two that are stopped are never waited for,
    they are deleted, and the deletion is confirmed, before the next
    resource is created. *)
Theorem waits_precede_dependents :
  (forall h1 h2,
      BuildPredictor.stopped h1 = false ->
      create_then_wait BuildPredictor.eqb BuildPredictor.notebook h1 h2) /\
  (forall h1 h2,
      BuildPredictor.stopped h1 = true ->
      before (action_eqb BuildPredictor.eqb) (Create h1) (Create h2)
             BuildPredictor.notebook = true ->
      index_of (action_eqb BuildPredictor.eqb (Wait h1))
               BuildPredictor.notebook = None /\
      before (action_eqb BuildPredictor.eqb) (DeleteAndWait h1) (Create h2)
             BuildPredictor.notebook = true) /\
  (forall h1 h2,
      WhatIf.polled h1 = true ->
      (h1, h2) <> (WhatIf.tts_dataset_import_job_arn,
                   WhatIf.rts_dataset_import_job_arn) ->
      create_then_wait WhatIf.eqb WhatIf.notebook h1 h2) /\
  (forall a b,
      In b (WhatIf.dependsOn a) -> WhatIf.polled b = true ->
      before (action_eqb WhatIf.eqb) (Wait b) (Create a) WhatIf.notebook = true) /\
  map (fun a => index_of (action_eqb WhatIf.eqb a) WhatIf.notebook)
      [ Create WhatIf.tts_dataset_import_job_arn;
        Create WhatIf.rts_dataset_import_job_arn;
        Wait WhatIf.tts_dataset_import_job_arn;
        Wait WhatIf.rts_dataset_import_job_arn;
        Create WhatIf.predictor_arn_1 ] =
    [Some 4; Some 5; Some 6; Some 7; Some 8] /\
  (forall h, WhatIf.polled h = false ->
             index_of (action_eqb WhatIf.eqb (Wait h)) WhatIf.notebook = None).
Proof.
  split; [|split; [|split; [|split; [|split]]]].
  - intros h1 h2 Hstopped Hbefore.
    destruct h1; try discriminate Hstopped;
      destruct h2; try discriminate Hbefore; now split.
  - intros h1 h2 Hstopped Hbefore.
    destruct h1; try discriminate Hstopped;
      destruct h2; try discriminate Hbefore; now split.
  - intros h1 h2 Hpolled Hpair Hbefore.
    destruct h1; try discriminate Hpolled;
      destruct h2; try discriminate Hbefore;
      try (now contradiction Hpair); now split.
  - intros a b Hdep Hpolled. destruct a; simpl in Hdep;
      repeat (destruct Hdep as [<-|Hdep];
              [try discriminate Hpolled; reflexivity|]);
      contradiction.
  - reflexivity.
  - intros h Hpolled. destruct h; try discriminate Hpolled; reflexivity.
Qed.

Lemma waits_precede_dependents_witness :
  create_then_wait WhatIf.eqb WhatIf.notebook
    WhatIf.predictor_arn_1 WhatIf.predictor_arn_2 /\
  before (action_eqb WhatIf.eqb) (Wait WhatIf.predictor_arn_1)
         (Create WhatIf.forecast_arn_1) WhatIf.notebook = true.
Proof.
  destruct waits_precede_dependents as (_ & _ & Hcycle & Hdep & _ & _).
  split.
  - apply (Hcycle WhatIf.predictor_arn_1 WhatIf.predictor_arn_2).
    + reflexivity.
    + discriminate.
  - apply (Hdep WhatIf.forecast_arn_1 WhatIf.predictor_arn_1).
    + simpl. now left.
    + reflexivity.
Defined.

End LifecycleFacts.

(** ** More on [wait_till_delete]: bounds, divergence, what it raises *)

Module CleanupRuns.
Import Cleanup CleanupFacts Trace.

Lemma iterations_until_step (c d : Z) :
  (0 < c)%Z -> (0 < d)%Z ->
  iterations_until c d = S (iterations_until c (d - c)).
Proof.
  intros Hc Hd. unfold iterations_until.
  replace (d + c - 1)%Z with ((d - c + c - 1) + 1 * c)%Z by lia.
  rewrite Z.div_add by lia.
  assert (0 <= (d - c + c - 1) / c)%Z by (apply Z.div_pos; lia).
  lia.
Qed.

Lemma iterations_until_nonpos (c d : Z) :
  (0 < c)%Z -> (d <= 0)%Z -> iterations_until c d = 0%nat.
Proof.
  intros Hc Hd. unfold iterations_until.
  assert ((d + c - 1) / c <= 0)%Z; [|lia].
  assert ((d + c - 1) / c < 1)%Z; [|lia].
  apply Z.div_lt_upper_bound; lia.
Qed.

Lemma slept_app (l l' : list event) : slept (l ++ l') = (slept l + slept l')%Z.
Proof.
  induction l as [|ev l IH]; [reflexivity|].
  destruct ev; simpl; rewrite ?IH; lia.
Qed.


(** With a time-out the loop is bounded whatever the callback does. *)
Lemma wait_loop_bounded {refuses : platform Z}
  (callback : nat -> result string) (c t : Z) (fuel : nat) :
  (0 < c)%Z ->
  forall k elapsed,
    let run := wait_loop refuses fuel callback c (Some t) k elapsed in
    (count is_call (snd run) <= iterations_until c (t - elapsed))%nat /\
    (slept (snd run) <= Z.of_nat (iterations_until c (t - elapsed)) * c)%Z /\
    ((iterations_until c (t - elapsed) < fuel)%nat -> fst run <> OutOfFuel).
Proof.
  intros Hc. induction fuel as [|fuel IH]; intros k elapsed; simpl.
  - repeat split; try lia. unfold count. simpl. lia.
  - destruct (Z.ltb_spec elapsed t) as [Hlt|Hge].
    + rewrite (iterations_until_step c (t - elapsed)) by lia.
      replace (t - elapsed - c)%Z with (t - (elapsed + c))%Z by lia.
      rewrite Nat2Z.inj_succ.
      set (n := iterations_until c (t - (elapsed + c))) in *.
      destruct (callback k) as [out|e].
      * destruct (time_sleep refuses k c) as [es|].
        { cbn [fst snd]. rewrite count_calls. cbn [calls slept length].
          split; [lia|split; [nia|intros _; discriminate]]. }
        specialize (IH (S k) (elapsed + c)%Z).
        destruct (wait_loop refuses fuel callback c (Some t) (S k)
            (elapsed + c)%Z)
          as [o tr]. simpl in *.
        destruct IH as (Hcalls & Hslept & Hfuel).
        rewrite !count_cons. simpl. repeat split; try lia.
        intros Hn. apply Hfuel. lia.
      * destruct e as [code|msg|msg|name];
          try destruct (code =? ResourceNotFoundException);
          cbn [fst snd]; rewrite count_calls; cbn [calls slept length];
          (split; [lia|split; [nia|intros _; discriminate]]).
    + rewrite (iterations_until_nonpos c (t - elapsed)) by lia.
      simpl. repeat split; try lia; [unfold count; simpl; lia|].
      intros _. discriminate.
Qed.

(** X1.  With a time-out [t] and a check time [c > 0], both in whole
    seconds, [wait_till_delete] is bounded whatever the service answers and
    whatever [time.sleep] does: it invokes the callback at most
    [iterations_until c t] times (not at all if [t <= 0]), it sleeps for
    less than [max t 0 + c] seconds in total, and every run that is allowed
    more iterations than that has ended. *)
Theorem timeout_bounds_every_run {refuses : platform Z}
  (callback : nat -> result string) (c t : Z)
  (fuel : nat) :
  (0 < c)%Z ->
  let run := wait_till_delete refuses fuel callback c (Some t) in
  (count is_call (snd run) <= iterations_until c t)%nat /\
  (slept (snd run) < Z.max t 0 + c)%Z /\
  ((iterations_until c t < fuel)%nat -> fst run <> OutOfFuel).
Proof.
  intros Hc run. subst run. unfold wait_till_delete. cbn [num_zero py_int].
  destruct (wait_loop_bounded (refuses:=refuses) callback c t fuel Hc 0 0%Z)
    as (Hcalls & Hslept & Hfuel).
  rewrite Z.sub_0_r in *. repeat split; trivial.
  destruct (iterations_until c t) as [|n] eqn:Hn.
  - simpl in Hslept. lia.
  - pose proof (iterations_until_least c t n Hc ltac:(lia)). lia.
Qed.

Lemma timeout_bounds_every_run_witness :
  let run :=
    wait_till_delete Stub.clock64 10
      (Stub.callback_of
         [Returns "{}"; Returns "{}"; Returns "{}"; Returns "{}"; not_found])
      5 (Some 12%Z) in
  (count is_call (snd run) <= iterations_until 5 12)%nat /\
  (slept (snd run) < Z.max 12 0 + 5)%Z /\
  ((iterations_until 5 12 < 10)%nat -> fst run <> OutOfFuel).
Proof.
  apply (timeout_bounds_every_run
           (Stub.callback_of
              [Returns "{}"; Returns "{}"; Returns "{}"; Returns "{}"; not_found])
           5 12 10).
  lia.
Defined.

(** X2.  With [timeout = None] (the default), a delete call that keeps
    being accepted is repeated for as long as [time.sleep] takes the check
    time, be it an int or a float.  If it always does, [wait_till_delete]
    does not end: whatever bound is put on the iterations, the run is still
    going when the bound is reached, having called and slept that many
    times.  If [time.sleep] refuses the check time, the run ends at the
    first refusal, by raising what [time.sleep] raised. *)
Theorem no_timeout_never_gives_up {T : Type} {num : Number T}
  {refuses : platform T} (callback : nat -> result string) (c : T)
  (fuel : nat) :
  (forall k, exists out, callback k = Returns out) ->
  (accepts refuses c ->
   wait_till_delete refuses fuel callback c None =
     (OutOfFuel, retries callback c 0 fuel) /\
   count is_call (retries callback c 0 fuel) = fuel /\
   count is_sleep (retries callback c 0 fuel) = fuel) /\
  (forall k e,
     (forall i, (i < k)%nat -> time_sleep refuses i c = None) ->
     time_sleep refuses k c = Some e ->
     (k < fuel)%nat ->
     wait_till_delete refuses fuel callback c None =
       (Raise e, retries callback c 0 k ++ [EvCall (callback k); EvSleep c])).
Proof.
  intros Hret. split.
  - intros Hc. split; [|apply count_retries].
    unfold wait_till_delete. rewrite <- (Nat.add_0_r fuel) at 1.
    rewrite (wait_loop_retries callback c None fuel 0%nat num_zero 0%nat).
    + cbn [wait_loop fst snd]. now rewrite app_nil_r.
    + intros i _. apply Hret.
    + intros i _. apply Hc.
    + reflexivity.
  - intros k e Hbefore Hk Hfuel. unfold wait_till_delete.
    replace fuel with (k + S (fuel - S k))%nat by lia.
    rewrite (wait_loop_retries callback c None k 0%nat num_zero).
    + rewrite Nat.add_0_l. cbn [wait_loop loop_condition].
      destruct (Hret k) as [out Hout]. rewrite Hout, Hk. reflexivity.
    + intros i _. apply Hret.
    + intros i Hi. apply Hbefore. lia.
    + reflexivity.
Qed.

Lemma no_timeout_never_gives_up_witness :
  wait_till_delete Stub.clock64 7 Stub.always_accepted default_check_time None =
    (OutOfFuel, retries Stub.always_accepted default_check_time 0 7) /\
  count is_call (retries Stub.always_accepted default_check_time 0 7) = 7%nat /\
  count is_sleep (retries Stub.always_accepted default_check_time 0 7) = 7%nat.
Proof.
  destruct (no_timeout_never_gives_up (refuses:=Stub.clock64)
              Stub.always_accepted default_check_time 7) as [Hgoes _].
  - intros k. now exists "{}".
  - apply Hgoes. intros k. reflexivity.
Defined.




(** Even positions of a trace hold invocations, odd positions the sleep
    or the print that follows. *)
Lemma wait_loop_positions {T : Type} {num : Number T}
  {refuses : platform T} (callback : nat -> result string) (c : T)
  (timeout : option T) (fuel : nat) :
  forall k elapsed i ev,
    nth_error (snd (wait_loop refuses fuel callback c timeout k elapsed)) i = Some ev ->
    if Nat.even i then exists r, ev = EvCall r
    else ev = EvSleep c \/ ev = EvPrint "Successful delete".
Proof.
  induction fuel as [|fuel IH]; intros k elapsed i ev; simpl.
  - now destruct i.
  - destruct (loop_condition timeout elapsed); [|now destruct i].
    destruct (callback k) as [out|e].
    + destruct (time_sleep refuses k c) as [es|].
      * destruct i as [|[|i]]; simpl; intros Hev; inversion Hev; subst;
          [now eexists|now left|now destruct i].
      * specialize (IH (S k) (num_add elapsed c)).
        destruct (wait_loop refuses fuel callback c timeout (S k)
            (num_add elapsed c))
          as [o tr]. simpl in *.
        destruct i as [|[|i]]; simpl; intros Hev.
        -- inversion Hev. now eexists.
        -- inversion Hev. now left.
        -- now apply IH.
    + destruct e as [code|msg|msg|name];
        try destruct (code =? ResourceNotFoundException); simpl;
        destruct i as [|[|i]]; simpl; intros Hev; inversion Hev; subst;
        try (now eexists); try (now right); now destruct i.
Qed.


Lemma print_iff_done {T : Type} {num : Number T}
  {refuses : platform T} (callback : nat -> result string) (c : T)
  (timeout : option T) (fuel : nat) :
  forall k elapsed,
    let run := wait_loop refuses fuel callback c timeout k elapsed in
    (existsb is_print (snd run) = true <-> fst run = Done tt) /\
    (count is_print (snd run) <= 1)%nat.
Proof.
  induction fuel as [|fuel IH]; intros k elapsed; simpl.
  - unfold count. simpl. split; [split; discriminate|lia].
  - destruct (loop_condition timeout elapsed);
      [|unfold count; simpl; split; [split; discriminate|lia]].
    destruct (callback k) as [out|e].
    + destruct (time_sleep refuses k c) as [es|].
      * unfold count. simpl. split; [split; discriminate|lia].
      * specialize (IH (S k) (num_add elapsed c)).
        destruct (wait_loop refuses fuel callback c timeout (S k)
            (num_add elapsed c))
          as [o tr]. simpl in *. now rewrite !count_cons.
    + destruct e as [code|msg|msg|name];
        try destruct (code =? ResourceNotFoundException);
        unfold count; simpl; (split; [split; try discriminate; trivial|lia]).
Qed.

(** X5.  [wait_till_delete] prints 'Successful delete' exactly when it
    returns, and then once: a run that ends by time-out or by an exception,
    or that is still going, has printed nothing. *)
Theorem prints_exactly_on_success {T : Type} {num : Number T}
  {refuses : platform T} (callback : nat -> result string) (c : T)
  (timeout : option T) (fuel : nat) :
  let run := wait_till_delete refuses fuel callback c timeout in
  (existsb is_print (snd run) = true <-> fst run = Done tt) /\
  (count is_print (snd run) <= 1)%nat /\
  (forall text, In (EvPrint text) (snd run) -> text = "Successful delete").
Proof.
  intros run. subst run. unfold wait_till_delete. cbn [num_zero py_int].
  destruct (print_iff_done (refuses:=refuses) callback c timeout
      fuel 0 num_zero) as [Hiff Hcount].
  repeat split; try apply Hiff; trivial.
  intros text Hin. apply In_nth_error in Hin. destruct Hin as [i Hi].
  pose proof (wait_loop_positions (refuses:=refuses) callback c timeout
      fuel 0 num_zero i _ Hi) as Hpos.
  destruct (Nat.even i); [destruct Hpos as [r Hr]|destruct Hpos as [Hs|Hp]];
    congruence.
Qed.

Lemma wait_loop_raises {T : Type} {num : Number T}
  {refuses : platform T} (callback : nat -> result string) (c : T)
  (timeout : option T) (fuel : nat) :
  forall k elapsed e,
    let run := wait_loop refuses fuel callback c timeout k elapsed in
    fst run = Raise e ->
    (exists n, nth_error (calls (snd run)) n = Some (Raises e) /\
               length (calls (snd run)) = S n /\
               e <> ClientError ResourceNotFoundException) \/
    (e = timed_out /\
     exists t,
       timeout = Some t /\
       num_lt (elapsed_after elapsed c (count is_sleep (snd run))) t = false) \/
    (exists n, time_sleep refuses (k + n) c = Some e /\
               (forall i, (i < n)%nat -> time_sleep refuses (k + i) c = None) /\
               length (calls (snd run)) = S n /\
               count is_sleep (snd run) = S n).
Proof.
  induction fuel as [|fuel IH]; intros k elapsed e; simpl; [discriminate|].
  destruct (loop_condition timeout elapsed) eqn:Hcond.
  - destruct (callback k) as [out|e0].
    + destruct (time_sleep refuses k c) as [es|] eqn:Hs.
      * simpl. intros He. inversion He; subst es. right. right.
        exists 0%nat. rewrite Nat.add_0_r. repeat split; trivial.
        intros i Hi. lia.
      * specialize (IH (S k) (num_add elapsed c) e).
        destruct (wait_loop refuses fuel callback c timeout (S k)
                            (num_add elapsed c)) as [o tr].
        cbn [fst snd] in *. intros Ho.
        destruct (IH Ho) as [(n & Hn & Hlen & Hne)|[(He & t' & Ht & Hle)|
                             (n & Hn & Hbefore & Hlen & Hsl)]].
        -- left. exists (S n). now repeat split; simpl; try lia.
        -- right. left. split; trivial. exists t'. split; [trivial|].
           rewrite !count_cons. cbn [is_sleep Nat.add elapsed_after].
           exact Hle.
        -- right. right. exists (S n). rewrite Nat.add_succ_r.
           split; [exact Hn|]. split; [|split].
           ++ intros [|i] Hi; [now rewrite Nat.add_0_r|].
              rewrite Nat.add_succ_r. apply Hbefore. lia.
           ++ cbn [calls length]. now rewrite Hlen.
           ++ rewrite !count_cons. cbn [is_sleep]. now rewrite Hsl.
    + destruct e0 as [code|msg|msg|name];
        try (destruct (code =? ResourceNotFoundException) eqn:Hcode;
             [discriminate|apply String.eqb_neq in Hcode]);
        simpl; intros He; inversion He; subst; left; exists 0%nat;
        repeat split; congruence.
  - simpl. intros He. inversion He. right. left. split; trivial.
    unfold loop_condition in Hcond. destruct timeout as [t|]; [|discriminate].
    exists t. split; trivial.
Qed.

(** X6.  What [wait_till_delete] can raise, with int or float seconds.  An
    exception that leaves the function is
    - the one its last invocation of the callback raised, and then not the
      not-found client error; or
    - the [TimeoutError] of the function, raised only if a time-out was
      given and [elapsed_time], which is [check_time] added once per sleep,
      is no longer below it; or
    - what [time.sleep] raised when it refused the check time: then every
      invocation has returned normally, and the refused sleep is the first
      that was refused and follows the last invocation.  A negative check
      time is refused at the first sleep, after a single invocation, and
      with [ValueError] unless the platform cannot even represent it.
    With the default arguments there is no time-out, so whatever is raised
    comes from the delete call or from the platform's [time.sleep]. *)
Theorem raises_only {T : Type} {num : Number T}
  {refuses : platform T} (callback : nat -> result string) (c : T)
  (timeout : option T) (fuel : nat) (e : exn) :
  let run := wait_till_delete refuses fuel callback c timeout in
  fst run = Raise e ->
  (exists n, nth_error (calls (snd run)) n = Some (Raises e) /\
             count is_call (snd run) = S n /\
             e <> ClientError ResourceNotFoundException) \/
  (e = timed_out /\
   exists t,
     timeout = Some t /\
     num_lt (elapsed_after num_zero c (count is_sleep (snd run))) t = false) \/
  (exists n, time_sleep refuses n c = Some e /\
             (forall i, (i < n)%nat -> time_sleep refuses i c = None) /\
             count is_call (snd run) = S n /\
             count is_sleep (snd run) = S n /\
             (num_eq c num_zero = false -> num_lt c num_zero = true ->
              n = 0%nat /\
              (refuses 0%nat c = None ->
               e = ValueError "sleep length must be non-negative"))).
Proof.
  intros run Hraise. subst run. unfold wait_till_delete in *.
  rewrite count_calls.
  destruct (wait_loop_raises (refuses:=refuses) callback c timeout fuel 0
              num_zero e Hraise)
    as [H|[(He & t & Ht & Hle)|(n & Hn & Hbefore & Hlen & Hsl)]];
    [now left| |].
  - right. left. split; trivial. exists t. now split.
  - right. right. exists n. cbn [Nat.add] in *.
    split; [exact Hn|]. split; [exact Hbefore|]. split; [exact Hlen|].
    split; [exact Hsl|]. intros Hnonzero Hneg.
    assert (Hfirst : n = 0%nat).
    { destruct n as [|n]; [reflexivity|].
      specialize (Hbefore 0%nat ltac:(lia)). unfold time_sleep in Hbefore.
      rewrite Hnonzero, Hneg in Hbefore. now destruct (refuses 0%nat c). }
    split; [exact Hfirst|]. intros Hplatform. subst n.
    unfold time_sleep in Hn. rewrite Hnonzero, Hplatform, Hneg in Hn.
    congruence.
Qed.

Lemma raises_only_witness :
  let e := OtherError "OverflowError" in
  let c := 9223372037%Z in
  let run := wait_till_delete Stub.clock64 9 Stub.always_accepted c None in
  (exists n, nth_error (calls (snd run)) n = Some (Raises e) /\
             count is_call (snd run) = S n /\
             e <> ClientError ResourceNotFoundException) \/
  (e = timed_out /\
   exists t,
     None = Some t /\
     num_lt (elapsed_after num_zero c (count is_sleep (snd run))) t = false) \/
  (exists n, time_sleep Stub.clock64 n c = Some e /\
             (forall i, (i < n)%nat -> time_sleep Stub.clock64 i c = None) /\
             count is_call (snd run) = S n /\
             count is_sleep (snd run) = S n /\
             (num_eq c num_zero = false -> num_lt c num_zero = true ->
              n = 0%nat /\
              (Stub.clock64 0%nat c = None ->
               e = ValueError "sleep length must be non-negative"))).
Proof.
  apply (raises_only (refuses:=Stub.clock64) Stub.always_accepted
                     9223372037%Z None 9 (OtherError "OverflowError")).
  reflexivity.
Defined.

(** X19.  With float seconds the additions to [elapsed_time] round, and the
    iterations are not as many as the quotient of time-out and check time
    suggests.  With a check time of 0.1 and a time-out of 0.8 the callback
    is invoked 9 times before the [TimeoutError], not 8: eight additions
    of 0.1 give 0.7999999999999999, which is below 0.8.  With 1 and 8
    whole seconds, it is invoked 8 times. *)
Theorem float_seconds_round :
  let run :=
    wait_till_delete Stub.float_clock64 20 Stub.always_accepted Stub.tenth
                     (Some Stub.eight_tenths) in
  let exact :=
    wait_till_delete Stub.clock64 20 Stub.always_accepted 1 (Some 8%Z) in
  run = (Raise timed_out, retries Stub.always_accepted Stub.tenth 0 9) /\
  count is_call (snd run) = 9%nat /\
  num_lt (elapsed_after num_zero Stub.tenth 8) Stub.eight_tenths = true /\
  exact = (Raise timed_out, retries Stub.always_accepted 1 0 8) /\
  count is_call (snd exact) = 8%nat.
Proof. repeat split; vm_compute; reflexivity. Qed.

End CleanupRuns.

(** ** The deletion cells *)

Module CleanupCellFacts.
Import Cleanup CleanupFacts CleanupCells Trace.

Lemma run_statements_all_done {refuses : platform Z}
  (fuel : nat) (callbacks : list (nat -> result string)) :
  (forall callback, In callback callbacks ->
     fst (wait_till_delete refuses fuel callback
         default_check_time default_timeout)
       = Done tt) ->
  run_statements refuses fuel callbacks =
    (Done tt, map (statement_trace refuses fuel) callbacks).
Proof.
  induction callbacks as [|callback rest IH]; intros Hdone; [reflexivity|].
  simpl. unfold statement_trace at 1.
  pose proof (Hdone callback (or_introl eq_refl)) as Hfirst.
  destruct (wait_till_delete refuses fuel callback
      default_check_time default_timeout)
    as [o tr]. simpl in Hfirst. subst o.
  rewrite IH by (intros cb Hin; apply Hdone; now right). reflexivity.
Qed.

Lemma run_statements_stops {refuses : platform Z}
  (fuel : nat)
  (done : list (nat -> result string)) (failing : nat -> result string)
  (rest : list (nat -> result string)) :
  (forall callback, In callback done ->
     fst (wait_till_delete refuses fuel callback
         default_check_time default_timeout)
       = Done tt) ->
  fst (wait_till_delete refuses fuel failing default_check_time default_timeout)
    <> Done tt ->
  run_statements refuses fuel (done ++ failing :: rest) =
    (fst (wait_till_delete refuses fuel failing
        default_check_time default_timeout),
     map (statement_trace refuses fuel) done ++
     [statement_trace refuses fuel failing]).
Proof.
  induction done as [|callback done IH]; intros Hdone Hfail; simpl;
    unfold statement_trace at 1.
  - destruct (wait_till_delete refuses fuel failing
      default_check_time default_timeout)
      as [o tr]. simpl in *. destruct o as [[]| |]; [congruence| |]; reflexivity.
  - pose proof (Hdone callback (or_introl eq_refl)) as Hfirst.
    destruct (wait_till_delete refuses fuel callback
        default_check_time default_timeout)
      as [o tr]. simpl in Hfirst. subst o.
    rewrite IH; trivial. intros cb Hin. apply Hdone. now right.
Qed.

(** X7.  A deletion cell stops at the first statement that fails.  If the
    statements before it have returned and, in the run of the failing one,
    an invocation of the delete call raises anything but the not-found
    client error, then the cell ends by raising that exception, and the
    resources of the statements after it receive no delete call at all:
    the cell has started one statement more than had returned, whatever
    follows. *)
Theorem error_skips_rest_of_cell {refuses : platform Z}
  (fuel : nat)
  (done : list (nat -> result string)) (failing : nat -> result string)
  (rest : list (nat -> result string)) (n : nat) (e : exn) :
  (forall callback, In callback done ->
     fst (wait_till_delete refuses fuel callback
         default_check_time default_timeout)
       = Done tt) ->
  nth_error (calls (statement_trace refuses fuel failing)) n = Some (Raises e) ->
  e <> ClientError ResourceNotFoundException ->
  run_statements refuses fuel (done ++ failing :: rest) =
    (Raise e,
     map (statement_trace refuses fuel) done ++
     [statement_trace refuses fuel failing]) /\
  length (snd (run_statements refuses fuel (done ++ failing :: rest))) =
    S (length done).
Proof.
  intros Hdone Hnth He.
  assert (Hfail : fst (wait_till_delete refuses fuel failing default_check_time
                                        default_timeout) = Raise e).
  { unfold statement_trace, wait_till_delete in *.
    destruct (raise_ends_run (refuses:=refuses) failing
        default_check_time default_timeout
                fuel 0 0%Z n e Hnth)
      as (_ & _ & _ & pre & [(Hnf & _)|(_ & Ho & _)]); [contradiction|exact Ho]. }
  rewrite run_statements_stops; trivial.
  - rewrite Hfail. split; [reflexivity|].
    simpl. rewrite length_app, length_map. simpl. lia.
  - rewrite Hfail. discriminate.
Qed.

Lemma error_skips_rest_of_cell_witness :
  run_statements Stub.clock64 3
    ([Stub.callback_of [Returns "{}"; not_found]] ++
     Stub.callback_of [Stub.resource_in_use] ::
     [Stub.callback_of [not_found]]) =
    (Raise (ClientError "ResourceInUseException"),
     map (statement_trace Stub.clock64 3)
         [Stub.callback_of [Returns "{}"; not_found]] ++
     [statement_trace Stub.clock64 3 (Stub.callback_of [Stub.resource_in_use])]) /\
  length (snd (run_statements Stub.clock64 3
                 ([Stub.callback_of [Returns "{}"; not_found]] ++
                  Stub.callback_of [Stub.resource_in_use] ::
                  [Stub.callback_of [not_found]]))) = S (length
    [Stub.callback_of [Returns "{}"; not_found]]).
Proof.
  apply (error_skips_rest_of_cell 3
           [Stub.callback_of [Returns "{}"; not_found]]
           (Stub.callback_of [Stub.resource_in_use])
           [Stub.callback_of [not_found]] 0
           (ClientError "ResourceInUseException")).
  - intros callback [<-|[]]. reflexivity.
  - reflexivity.
  - discriminate.
Defined.

(** X8.  Running a deletion cell again is harmless: if every resource of
    the cell is already gone, so that the first delete call of each
    statement raises the not-found client error, the cell completes with
    exactly one delete call per resource and without sleeping. *)
Theorem rerun_on_deleted_resources {refuses : platform Z}
  (fuel : nat)
  (callbacks : list (nat -> result string)) :
  (1 <= fuel)%nat ->
  (forall callback, In callback callbacks -> callback 0%nat = not_found) ->
  run_statements refuses fuel callbacks =
    (Done tt,
     map (fun _ => [EvCall not_found; EvPrint "Successful delete"]) callbacks) /\
  count is_call (concat (snd (run_statements refuses fuel callbacks))) =
    length callbacks /\
  count is_sleep (concat (snd (run_statements refuses fuel callbacks))) = 0%nat.
Proof.
  intros Hfuel Hgone.
  assert (Hrun : forall callback, In callback callbacks ->
            wait_till_delete refuses fuel callback
                default_check_time default_timeout =
              (Done tt, [EvCall not_found; EvPrint "Successful delete"])).
  { intros callback Hin. destruct fuel as [|fuel]; [lia|].
    unfold wait_till_delete. cbn [num_zero py_int]. simpl.
    now rewrite (Hgone callback Hin). }
  assert (Heq : run_statements refuses fuel callbacks =
            (Done tt,
             map (fun _ => [EvCall not_found; EvPrint "Successful delete"])
                 callbacks)).
  { rewrite run_statements_all_done by (intros cb Hin; now rewrite Hrun).
    f_equal. apply map_ext_in. intros cb Hin. unfold statement_trace.
    now rewrite Hrun. }
  rewrite Heq. split; [reflexivity|]. simpl.
  clear. induction callbacks as [|cb rest [IHc IHs]]; [now split|].
  cbn [map concat app length]. rewrite !count_cons.
  cbn [is_call is_sleep Nat.add]. rewrite IHc, IHs. now split.
Qed.

Lemma rerun_on_deleted_resources_witness :
  run_statements Stub.clock64 1
    [Stub.callback_of [not_found]; Stub.callback_of [not_found; Returns "{}"]] =
    (Done tt,
     map (fun _ => [EvCall not_found; EvPrint "Successful delete"])
         [Stub.callback_of [not_found];
          Stub.callback_of [not_found; Returns "{}"]]) /\
  count is_call
    (concat (snd (run_statements Stub.clock64 1
       [Stub.callback_of [not_found];
        Stub.callback_of [not_found; Returns "{}"]]))) =
    length [Stub.callback_of [not_found];
            Stub.callback_of [not_found; Returns "{}"]] /\
  count is_sleep
    (concat (snd (run_statements Stub.clock64 1
       [Stub.callback_of [not_found];
        Stub.callback_of [not_found; Returns "{}"]]))) = 0%nat.
Proof.
  apply (rerun_on_deleted_resources 1
           [Stub.callback_of [not_found];
            Stub.callback_of [not_found; Returns "{}"]]).
  - lia.
  - intros callback [<-|[<-|[]]]; reflexivity.
Defined.

Lemma delete_each_stops {H : Type} (delete : nat -> H -> result string)
  (done : list H) (job : H) (rest : list H) (e : exn) :
  forall i,
    (forall j h, nth_error done j = Some h ->
                 exists out, delete (i + j)%nat h = Returns out) ->
    delete (i + length done)%nat job = Raises e ->
    fst (delete_each delete i (done ++ job :: rest)) = Raise e /\
    map fst (snd (delete_each delete i (done ++ job :: rest))) = done ++ [job].
Proof.
  induction done as [|h done IH]; intros i Hdone Hjob; simpl in *.
  - rewrite Nat.add_0_r in Hjob. now rewrite Hjob.
  - destruct (Hdone 0%nat h eq_refl) as [out Hout].
    rewrite Nat.add_0_r in Hout. rewrite Hout.
    destruct (IH (S i)) as [Ho Hlog].
    + intros j h' Hj. replace (S i + j)%nat with (i + S j)%nat by lia.
      now apply Hdone.
    + now replace (S i + length done)%nat with (i + S (length done))%nat by lia.
    + destruct (delete_each delete (S i) (done ++ job :: rest)) as [o log].
      simpl in *. now rewrite Ho, Hlog.
Qed.

(** X9.  The cell that deletes the exports is not forgiving the way
    [wait_till_delete] is.  Its loop calls [delete_forecast_export_job]
    once per export, in the order of the list, and the first call that
    raises (the not-found client error of an export that is already gone
    included) ends the cell with that exception: the exports after it
    receive no delete call.  If the list call at the top of the cell
    raises, no export is deleted. *)
Theorem exports_loop_stops_at_first_error {H : Type}
  (delete : nat -> H -> result string) (listing : string)
  (done : list H) (job : H) (rest : list H) (e : exn) :
  (forall j h, nth_error done j = Some h -> exists out, delete j h = Returns out) ->
  delete (length done) job = Raises e ->
  fst (delete_exports (Returns listing) delete (done ++ job :: rest)) = Raise e /\
  map fst (snd (delete_exports (Returns listing) delete (done ++ job :: rest)))
    = done ++ [job] /\
  (forall e', delete_exports (Raises e') delete (done ++ job :: rest)
              = (Raise e', [])).
Proof.
  intros Hdone Hjob. unfold delete_exports.
  destruct (delete_each_stops delete done job rest e 0 Hdone Hjob) as [Ho Hlog].
  now repeat split.
Qed.

Lemma exports_loop_stops_at_first_error_witness :
  fst (delete_exports (Returns "{}")
         (fun _ (h : CleanupNotebook.handle) =>
            match h with
            | CleanupNotebook.deeparp_export_forecast_arn => not_found
            | _ => Returns "{}"
            end)
         ([] ++ CleanupNotebook.deeparp_export_forecast_arn ::
          [CleanupNotebook.arima_export_forecast_arn;
           CleanupNotebook.prophet_export_forecast_arn]))
    = Raise (ClientError ResourceNotFoundException) /\
  map fst
    (snd (delete_exports (Returns "{}")
            (fun _ (h : CleanupNotebook.handle) =>
               match h with
               | CleanupNotebook.deeparp_export_forecast_arn => not_found
               | _ => Returns "{}"
               end)
            ([] ++ CleanupNotebook.deeparp_export_forecast_arn ::
             [CleanupNotebook.arima_export_forecast_arn;
              CleanupNotebook.prophet_export_forecast_arn])))
    = [] ++ [CleanupNotebook.deeparp_export_forecast_arn] /\
  (forall e',
      delete_exports (Raises e')
        (fun _ (h : CleanupNotebook.handle) =>
           match h with
           | CleanupNotebook.deeparp_export_forecast_arn => not_found
           | _ => Returns "{}"
           end)
        ([] ++ CleanupNotebook.deeparp_export_forecast_arn ::
         [CleanupNotebook.arima_export_forecast_arn;
          CleanupNotebook.prophet_export_forecast_arn])
      = (Raise e', [])).
Proof.
  apply (exports_loop_stops_at_first_error
           (fun _ (h : CleanupNotebook.handle) =>
              match h with
              | CleanupNotebook.deeparp_export_forecast_arn => not_found
              | _ => Returns "{}"
              end)
           "{}" [] CleanupNotebook.deeparp_export_forecast_arn
           [CleanupNotebook.arima_export_forecast_arn;
            CleanupNotebook.prophet_export_forecast_arn]
           (ClientError ResourceNotFoundException)).
  - intros [|j] h Hj; discriminate Hj.
  - reflexivity.
Defined.

End CleanupCellFacts.

(** ** More on the status loop: errors, divergence, how it completes *)

Module PollerRuns.
Import Poller PollerFacts Trace.

Lemma slept_rounds (describe : nat -> result snapshot) (n : nat) :
  forall k,
    (forall i, (k <= i < k + n)%nat -> in_progress describe i) ->
    slept (rounds describe k n) = (10 * Z.of_nat n)%Z.
Proof.
  induction n as [|n IH]; intros k Hpre; [reflexivity|].
  destruct (Hpre k ltac:(lia)) as (s & Hk & _).
  rewrite rounds_S, Hk. cbn [round app slept].
  rewrite IH by (intros i Hi; apply Hpre; lia). lia.
Qed.

Lemma no_end_in_rounds (describe : nat -> result snapshot) (n : nat) :
  forall k, existsb is_end (rounds describe k n) = false.
Proof.
  induction n as [|n IH]; intros k; [reflexivity|].
  rewrite rounds_S, existsb_app, IH.
  now destruct (describe k).
Qed.

(** X10.  An exception of the describe call leaves the cell as it is.  If
    the N-th status check raises while all earlier ones gave snapshots in
    progress, the cell ends by raising that exception after exactly N
    describe calls and N - 1 sleeps; the failed check is not reported to
    the status indicator and [status_indicator.end()] is not called. *)
Theorem describe_error_propagates (describe : nat -> result snapshot)
  (N : nat) (e : exn) (fuel : nat) :
  (1 <= N)%nat ->
  (forall i, (i < N - 1)%nat -> in_progress describe i) ->
  describe (N - 1)%nat = Raises e ->
  (N <= fuel)%nat ->
  let run := wait_for_import fuel describe in
  run = (Raise e, rounds describe 0 (N - 1) ++ [EvDescribe (Raises e)]) /\
  existsb is_end (snd run) = false /\
  count is_describe (snd run) = N /\
  count is_sleep (snd run) = (N - 1)%nat.
Proof.
  intros HN Hpre Hraise Hfuel run.
  assert (Hrun : run = (Raise e, rounds describe 0 (N - 1) ++
                                 [EvDescribe (Raises e)])).
  { subst run. unfold wait_for_import.
    replace fuel with ((N - 1) + S (fuel - N))%nat by lia.
    rewrite poll_loop_in_progress by (intros i Hi; apply Hpre; lia).
    simpl. now rewrite Hraise. }
  rewrite Hrun. cbn [snd].
  destruct (count_rounds describe (N - 1) 0) as [Hd Hs];
    [intros i Hi; apply Hpre; lia|].
  rewrite existsb_app, no_end_in_rounds, !count_app, Hd, Hs.
  unfold count. simpl. repeat split; lia.
Qed.

Lemma describe_error_propagates_witness :
  let run :=
    wait_for_import 5 (Stub.describe_of ["CREATE_PENDING"; "CREATE_IN_PROGRESS"]) in
  run = (Raise (OtherError "StopIteration"),
         rounds (Stub.describe_of ["CREATE_PENDING"; "CREATE_IN_PROGRESS"])
                0 (3 - 1) ++
         [EvDescribe (Raises (OtherError "StopIteration"))]) /\
  existsb is_end (snd run) = false /\
  count is_describe (snd run) = 3%nat /\
  count is_sleep (snd run) = (3 - 1)%nat.
Proof.
  apply (describe_error_propagates
           (Stub.describe_of ["CREATE_PENDING"; "CREATE_IN_PROGRESS"])
           3 (OtherError "StopIteration") 5).
  - lia.
  - intros i Hi. destruct i as [|[|i]]; [| |simpl in Hi; lia].
    + exists (mkSnapshot "CREATE_PENDING" "{}"). repeat split; discriminate.
    + exists Stub.create_in_progress. repeat split; discriminate.
  - reflexivity.
  - lia.
Defined.

(** X11.  The status loop has no time-out.  As long as the job stays in
    states other than ACTIVE and CREATE_FAILED the cell does not end:
    whatever bound is put on the iterations, the run is still going when
    it is reached, after that many describe calls and ten seconds of sleep
    for each. *)
Theorem polls_forever_while_in_progress (describe : nat -> result snapshot)
  (fuel : nat) :
  (forall i, in_progress describe i) ->
  wait_for_import fuel describe = (OutOfFuel, rounds describe 0 fuel) /\
  count is_describe (rounds describe 0 fuel) = fuel /\
  slept (rounds describe 0 fuel) = (10 * Z.of_nat fuel)%Z.
Proof.
  intros Hpre. split; [|split].
  - unfold wait_for_import. rewrite <- (Nat.add_0_r fuel) at 1.
    rewrite poll_loop_in_progress by (intros i _; apply Hpre).
    simpl. now rewrite app_nil_r.
  - now apply count_rounds.
  - now apply slept_rounds.
Qed.

Lemma polls_forever_while_in_progress_witness :
  wait_for_import 6 (fun _ => Returns Stub.create_in_progress) =
    (OutOfFuel, rounds (fun _ => Returns Stub.create_in_progress) 0 6) /\
  count is_describe (rounds (fun _ => Returns Stub.create_in_progress) 0 6)
    = 6%nat /\
  slept (rounds (fun _ => Returns Stub.create_in_progress) 0 6)
    = (10 * Z.of_nat 6)%Z.
Proof.
  apply (polls_forever_while_in_progress
           (fun _ => Returns Stub.create_in_progress) 6).
  intros i. exists Stub.create_in_progress. repeat split; discriminate.
Defined.

Lemma poll_loop_done (describe : nat -> result snapshot) (fuel : nat) :
  forall k status,
    fst (poll_loop fuel describe k) = Done status ->
    exists n s,
      (n < fuel)%nat /\
      describe (k + n)%nat = Returns s /\ Status s = status /\
      is_terminal status = true /\
      (forall i, (k <= i < k + n)%nat -> in_progress describe i) /\
      snd (poll_loop fuel describe k) =
        rounds describe k n ++ [EvDescribe (Returns s); EvUpdate status].
Proof.
  induction fuel as [|fuel IH]; intros k status; simpl; [discriminate|].
  destruct (describe k) as [s|e] eqn:Hk; [|discriminate].
  destruct (is_terminal (Status s)) eqn:Hterm.
  - simpl. intros Hdone. inversion Hdone; subst.
    exists 0%nat, s. rewrite Nat.add_0_r. repeat split; trivial; lia.
  - specialize (IH (S k) status).
    destruct (poll_loop fuel describe (S k)) as [o tr]. simpl in *.
    intros Hdone. destruct (IH Hdone) as (n & s' & Hn & Hs' & Hst & Ht & Hpre & Htr).
    exists (S n), s'. replace (k + S n)%nat with (S k + n)%nat by lia.
    repeat split; trivial; try lia.
    + intros i Hi. destruct (Nat.eq_dec i k) as [->|Hne].
      * exists s. split; trivial. now apply is_terminal_false.
      * apply Hpre. lia.
    + rewrite rounds_S, Hk, Htr. reflexivity.
Qed.

Lemma poll_loop_no_end (describe : nat -> result snapshot) (fuel : nat) :
  forall k, existsb is_end (snd (poll_loop fuel describe k)) = false.
Proof.
  induction fuel as [|fuel IH]; intros k; simpl; [reflexivity|].
  destruct (describe k) as [s|e]; [|reflexivity].
  destruct (is_terminal (Status s)); [reflexivity|].
  specialize (IH (S k)). now destruct (poll_loop fuel describe (S k)).
Qed.

(** X12.  How the cell completes.  If the cell completes, the variable
    [status] holds 'ACTIVE' or 'CREATE_FAILED', and this is the state of the
    first snapshot in either of these states: all earlier status checks
    gave snapshots in progress, and nothing was polled after it.
    [status_indicator.end()] is called exactly in the runs that complete. *)
Theorem completes_only_in_terminal_state (describe : nat -> result snapshot)
  (fuel : nat) :
  let run := wait_for_import fuel describe in
  (forall status,
      fst run = Done status ->
      (status = "ACTIVE" \/ status = "CREATE_FAILED") /\
      exists n s,
        (n < fuel)%nat /\ describe n = Returns s /\ Status s = status /\
        (forall i, (i < n)%nat -> in_progress describe i) /\
        snd run = rounds describe 0 n ++
                  [EvDescribe (Returns s); EvUpdate status; EvEnd]) /\
  (existsb is_end (snd run) = true <-> exists status, fst run = Done status).
Proof.
  intros run. subst run. unfold wait_for_import.
  pose proof (poll_loop_done describe fuel 0) as Hdone.
  pose proof (poll_loop_no_end describe fuel 0) as Hno.
  destruct (poll_loop fuel describe 0) as [o tr]. simpl in *.
  destruct o as [status| |]; simpl.
  - split.
    + intros status' Heq. inversion Heq; subst status'.
      destruct (Hdone status eq_refl) as (n & s & Hn & Hs & Hst & Ht & Hpre & Htr).
      split; [now apply is_terminal_true|].
      exists n, s. repeat split; trivial.
      * intros i Hi. apply Hpre. lia.
      * rewrite Htr, <- app_assoc. reflexivity.
    + rewrite existsb_app, Hno. simpl. split; [now exists status|reflexivity].
  - split; [discriminate|]. rewrite Hno.
    split; [discriminate|intros [status Hs]; discriminate].
  - split; [discriminate|]. rewrite Hno.
    split; [discriminate|intros [status Hs]; discriminate].
Qed.

Lemma completes_only_in_terminal_state_witness :
  (Stub.describe_of ["CREATE_IN_PROGRESS"; "CREATE_FAILED"; "ACTIVE"] 1%nat
     = Returns Stub.create_failed) /\
  ("CREATE_FAILED" = "ACTIVE" \/ "CREATE_FAILED" = "CREATE_FAILED").
Proof.
  destruct (completes_only_in_terminal_state
              (Stub.describe_of ["CREATE_IN_PROGRESS"; "CREATE_FAILED"; "ACTIVE"]) 4)
    as [Hdone _].
  destruct (Hdone "CREATE_FAILED" eq_refl) as [Hstate _].
  split; [reflexivity|exact Hstate].
Defined.

Lemma poll_loop_protocol (describe : nat -> result snapshot) (fuel : nat) :
  forall k i s,
    let run := poll_loop fuel describe k in
    nth_error (snd run) i = Some (EvDescribe (Returns s)) ->
    nth_error (snd run) (S i) = Some (EvUpdate (Status s)) /\
    (if is_terminal (Status s)
     then length (snd run) = S (S i) /\ fst run = Done (Status s)
     else nth_error (snd run) (S (S i)) = Some (EvSleep 10)).
Proof.
  induction fuel as [|fuel IH]; intros k i s; simpl; [now destruct i|].
  destruct (describe k) as [s0|e].
  - destruct (is_terminal (Status s0)) eqn:Hterm.
    + destruct i as [|[|[|i]]]; simpl; intros Hi; inversion Hi; subst.
      now rewrite Hterm.
    + specialize (IH (S k)).
      destruct (poll_loop fuel describe (S k)) as [o tr]. simpl in *.
      destruct i as [|[|[|i]]]; simpl; intros Hi; try discriminate Hi.
      * inversion Hi; subst. now rewrite Hterm.
      * specialize (IH i s Hi). destruct IH as [Hup Hnext].
        split; [exact Hup|].
        destruct (is_terminal (Status s)); [|exact Hnext].
        destruct Hnext as [Hlen Ho]. split; [lia|exact Ho].
  - destruct i as [|[|i]]; simpl; intros Hi; inversion Hi.
Qed.

(** X13.  What the status indicator is shown.  In every run of the cell,
    each status check that gives a snapshot is followed at once by
    [status_indicator.update] with the state of that snapshot; what comes
    next is [status_indicator.end()] if the state is ACTIVE or
    CREATE_FAILED, and a sleep of 10 seconds otherwise. *)
Theorem every_snapshot_is_reported (describe : nat -> result snapshot)
  (fuel i : nat) (s : snapshot) :
  let tr := snd (wait_for_import fuel describe) in
  nth_error tr i = Some (EvDescribe (Returns s)) ->
  nth_error tr (S i) = Some (EvUpdate (Status s)) /\
  nth_error tr (S (S i)) =
    Some (if is_terminal (Status s) then EvEnd else EvSleep 10).
Proof.
  intros tr. subst tr. unfold wait_for_import.
  pose proof (poll_loop_protocol describe fuel 0 i s) as Hproto.
  destruct (poll_loop fuel describe 0) as [o tr]. cbn [fst snd] in Hproto.
  assert (Hin : nth_error (tr ++ [EvEnd]) i = Some (EvDescribe (Returns s)) ->
                nth_error tr i = Some (EvDescribe (Returns s))).
  { intros Hi. destruct (Nat.lt_ge_cases i (length tr)) as [Hlt|Hge].
    - now rewrite nth_error_app1 in Hi.
    - rewrite nth_error_app2 in Hi by assumption.
      destruct (i - length tr)%nat as [|[|j]]; discriminate Hi. }
  destruct o as [status| |]; cbn [snd]; intros Hi.
  - apply Hin in Hi. destruct (Hproto Hi) as [Hup Hnext].
    assert (Hlt : (S i < length tr)%nat)
      by (apply nth_error_Some; congruence).
    rewrite nth_error_app1 by assumption. split; [exact Hup|].
    destruct (is_terminal (Status s)).
    + destruct Hnext as [Hlen _].
      rewrite nth_error_app2 by lia. rewrite Hlen, Nat.sub_diag. reflexivity.
    + rewrite nth_error_app1; [exact Hnext|].
      apply nth_error_Some. congruence.
  - destruct (Hproto Hi) as [Hup Hnext]. split; [exact Hup|].
    destruct (is_terminal (Status s)); [|exact Hnext].
    destruct Hnext as [_ Ho]. discriminate Ho.
  - destruct (Hproto Hi) as [Hup Hnext]. split; [exact Hup|].
    destruct (is_terminal (Status s)); [|exact Hnext].
    destruct Hnext as [_ Ho]. discriminate Ho.
Qed.

Lemma every_snapshot_is_reported_witness :
  nth_error
    (snd (wait_for_import 3 (Stub.describe_of ["CREATE_IN_PROGRESS"; "ACTIVE"])))
    (S 3) = Some (EvUpdate (Status Stub.active)) /\
  nth_error
    (snd (wait_for_import 3 (Stub.describe_of ["CREATE_IN_PROGRESS"; "ACTIVE"])))
    (S (S 3)) =
    Some (if is_terminal (Status Stub.active) then EvEnd else EvSleep 10).
Proof.
  apply (every_snapshot_is_reported
           (Stub.describe_of ["CREATE_IN_PROGRESS"; "ACTIVE"]) 3 3 Stub.active).
  reflexivity.
Defined.

End PollerRuns.

(** ** [plot_forecast] *)

Module PlotFacts.
Import Plot.

Section Facts.
Context {V D : Type} (strptime : string -> string -> result D).

Lemma zip3_length {A B C : Type} (a : list A) :
  forall (b : list B) (c : list C), length (zip3 a b c) = shortest a b c.
Proof.
  unfold shortest.
  induction a as [|u a IH]; intros [|v b] [|w c]; simpl; trivial.
  now rewrite IH.
Qed.

Lemma zip3_firsts {A B C : Type} (a : list A) :
  forall (b : list B) (c : list C),
    map (fun t => fst (fst t)) (zip3 a b c) = firstn (shortest a b c) a /\
    map (fun t => snd (fst t)) (zip3 a b c) = firstn (shortest a b c) b /\
    map (fun t => snd t) (zip3 a b c) = firstn (shortest a b c) c.
Proof.
  unfold shortest.
  induction a as [|u a IH]; intros [|v b] [|w c]; simpl; try (now repeat split).
  destruct (IH b c) as (H1 & H2 & H3). now rewrite H1, H2, H3.
Qed.

(** Entries beyond the shortest list play no part. *)
Lemma zip3_truncated {A B C : Type} (a : list A) :
  forall (b : list B) (c : list C),
    zip3 (firstn (shortest a b c) a) (firstn (shortest a b c) b)
         (firstn (shortest a b c) c) = zip3 a b c.
Proof.
  unfold shortest.
  induction a as [|u a IH]; intros [|v b] [|w c]; simpl; trivial.
  now rewrite IH.
Qed.

Lemma extend_spec (triples : list (prediction V * prediction V * prediction V)) :
  forall acc s,
    extend strptime triples acc = Returns s ->
    exists dates,
      map (fun t => strptime (Timestamp (snd (fst t))) "%Y-%m-%dT00:00:00")
          triples = map Returns dates /\
      x s = x acc ++ map OfDate dates /\
      y_p10 s = y_p10 acc ++ map (fun t => Value (fst (fst t))) triples /\
      y_p50 s = y_p50 acc ++ map (fun t => Value (snd (fst t))) triples /\
      y_p90 s = y_p90 acc ++ map (fun t => Value (snd t)) triples.
Proof.
  induction triples as [|[[p10 p50] p90] rest IH]; intros acc s; simpl.
  - intros Hs. inversion Hs; subst. exists []. now rewrite !app_nil_r.
  - destruct (strptime (Timestamp p50) "%Y-%m-%dT00:00:00") as [date|e] eqn:Hd;
      [|discriminate].
    intros Hs. destruct (IH _ _ Hs) as (dates & Hdates & Hx & H10 & H50 & H90).
    exists (date :: dates). simpl in *.
    rewrite Hdates, Hx, H10, H50, H90, <- !app_assoc. now repeat split.
Qed.

(** The loop looks at the values of the three quantiles and at the
    timestamps of p50 only. *)
Lemma extend_ignores (a : list (prediction V)) :
  forall (a' b c c' : list (prediction V)) acc,
    map Value a = map Value a' ->
    map Value c = map Value c' ->
    extend strptime (zip3 a b c) acc = extend strptime (zip3 a' b c') acc.
Proof.
  induction a as [|u a IH]; intros [|u' a'] b c c' acc Ha Hc;
    try discriminate Ha; [reflexivity|].
  destruct b as [|v b]; [reflexivity|].
  destruct c as [|w c], c' as [|w' c']; try discriminate Hc; [reflexivity|].
  simpl in *. inversion Ha as [[Hu Ha']]. inversion Hc as [[Hw Hc']].
  destruct (strptime (Timestamp v) "%Y-%m-%dT00:00:00"); [|reflexivity].
  rewrite Hu, Hw. now apply IH.
Qed.

(** X14.  What [plot_forecast] plots.  When the function gets as far as
    plotting, the four lists handed to [plt.plot] and [plt.fill_between]
    have the same length, one more than the shortest of the three quantile
    lists; each of the three value lists starts with the demand of the
    first row of the item at the last timestamp of the training data and
    continues with the values of its quantile, cut to the shortest list;
    and [x] holds the parsed timestamp of that row followed by the parsed
    timestamps of p50, cut likewise. *)
Theorem plot_forecast_series (df_item_actual : list (row V))
  (training_data_period : string * string)
  (single_item_forecast : string -> option (list (prediction V)))
  (s : series V D) :
  plot_forecast strptime df_item_actual training_data_period
                single_item_forecast = Returns s ->
  exists first connect p10s p50s p90s dates,
    hd_error (filter (fun r => timestamp r =? snd training_data_period)
                     df_item_actual) = Some first /\
    strptime (timestamp first) "%Y-%m-%d" = Returns connect /\
    single_item_forecast "p10" = Some p10s /\
    single_item_forecast "p50" = Some p50s /\
    single_item_forecast "p90" = Some p90s /\
    map (fun p => strptime (Timestamp p) "%Y-%m-%dT00:00:00")
        (firstn (shortest p10s p50s p90s) p50s) = map Returns dates /\
    x s = OfDatetime connect :: map OfDate dates /\
    y_p10 s = demand first :: map Value (firstn (shortest p10s p50s p90s) p10s) /\
    y_p50 s = demand first :: map Value (firstn (shortest p10s p50s p90s) p50s) /\
    y_p90 s = demand first :: map Value (firstn (shortest p10s p50s p90s) p90s) /\
    length (x s) = S (shortest p10s p50s p90s) /\
    length (y_p10 s) = S (shortest p10s p50s p90s) /\
    length (y_p50 s) = S (shortest p10s p50s p90s) /\
    length (y_p90 s) = S (shortest p10s p50s p90s).
Proof.
  unfold plot_forecast.
  destruct (filter (fun r => timestamp r =? snd training_data_period)
                   df_item_actual) as [|first rows]; [discriminate|].
  destruct (strptime (timestamp first) "%Y-%m-%d") as [connect|e] eqn:Hc;
    [|discriminate].
  destruct (single_item_forecast "p10") as [p10s|]; [|discriminate].
  destruct (single_item_forecast "p50") as [p50s|]; [|discriminate].
  destruct (single_item_forecast "p90") as [p90s|]; [|discriminate].
  intros Hs. apply extend_spec in Hs.
  destruct Hs as (dates & Hdates & Hx & H10 & H50 & H90). simpl in *.
  destruct (zip3_firsts p10s p50s p90s) as (F10 & F50 & F90).
  rewrite <- (map_map (fun t => snd (fst t))
                      (fun p => strptime (Timestamp p) "%Y-%m-%dT00:00:00")),
          F50 in Hdates.
  rewrite <- (map_map (fun t => fst (fst t)) Value), F10 in H10.
  rewrite <- (map_map (fun t => snd (fst t)) Value), F50 in H50.
  rewrite <- (map_map (fun t => snd t) Value), F90 in H90.
  assert (Hlen : length dates = shortest p10s p50s p90s).
  { rewrite <- (length_map Returns dates), <- Hdates, length_map, <- F50,
            length_map. apply zip3_length. }
  assert (L10 : length (firstn (shortest p10s p50s p90s) p10s)
                = shortest p10s p50s p90s)
    by (rewrite <- F10, length_map; apply zip3_length).
  assert (L50 : length (firstn (shortest p10s p50s p90s) p50s)
                = shortest p10s p50s p90s)
    by (rewrite <- F50, length_map; apply zip3_length).
  assert (L90 : length (firstn (shortest p10s p50s p90s) p90s)
                = shortest p10s p50s p90s)
    by (rewrite <- F90, length_map; apply zip3_length).
  exists first, connect, p10s, p50s, p90s, dates.
  rewrite Hx, H10, H50, H90. cbn [length hd_error].
  rewrite !length_map, Hlen, L10, L50, L90. now repeat split.
Qed.

(** X15.  What [plot_forecast] does not look at.  The entries of a
    quantile beyond the length of the shortest of the three lists, and the
    timestamps of p10 and p90, have no influence on what the function does:
    it plots the same (or raises the same) for a forecast cut to the
    shortest length and with any timestamps in p10 and p90. *)
Theorem plot_forecast_ignores (df_item_actual : list (row V))
  (training_data_period : string * string)
  (f g : string -> option (list (prediction V)))
  (a b c a' c' : list (prediction V)) :
  f "p10" = Some a -> f "p50" = Some b -> f "p90" = Some c ->
  g "p10" = Some a' ->
  g "p50" = Some (firstn (shortest a b c) b) ->
  g "p90" = Some c' ->
  map Value a' = map Value (firstn (shortest a b c) a) ->
  map Value c' = map Value (firstn (shortest a b c) c) ->
  plot_forecast strptime df_item_actual training_data_period f =
  plot_forecast strptime df_item_actual training_data_period g.
Proof.
  intros Fa Fb Fc Ga Gb Gc Ha Hc. unfold plot_forecast.
  destruct (filter (fun r => timestamp r =? snd training_data_period)
                   df_item_actual) as [|first rows]; [reflexivity|].
  destruct (strptime (timestamp first) "%Y-%m-%d") as [connect|e];
    [|reflexivity].
  rewrite Fa, Fb, Fc, Ga, Gb, Gc.
  rewrite <- (zip3_truncated a b c).
  apply extend_ignores; now symmetry.
Qed.

Lemma filter_none {A : Type} (p : A -> bool) (l : list A) :
  (forall a, In a l -> p a = false) -> filter p l = [].
Proof.
  induction l as [|a l IH]; intros Hp; [reflexivity|].
  simpl. rewrite (Hp a (or_introl eq_refl)).
  apply IH. intros a' Hin. apply Hp. now right.
Qed.

(** X16.  An item without a row at the last timestamp of the training data
    cannot be plotted: whatever the forecast, [plot_forecast] raises
    [KeyError] when it looks for the value that connects the history with
    the forecast.  This is so for an item that is not in [df_tts] at all and
    for an item whose history ends earlier than that of the others. *)
Theorem item_without_last_row (df_tts : list (row V)) (item : string)
  (training_data_period : string * string)
  (single_item_forecast : string -> option (list (prediction V))) :
  (forall r, In r df_tts -> item_id r = item ->
             timestamp r <> snd training_data_period) ->
  plot_forecast strptime (rows_of_item df_tts item) training_data_period
                single_item_forecast = Raises KeyError.
Proof.
  intros Hrows. unfold plot_forecast.
  rewrite filter_none; [reflexivity|].
  intros r Hin. unfold rows_of_item in Hin. apply filter_In in Hin.
  destruct Hin as [Hin Hitem]. apply String.eqb_eq in Hitem.
  apply String.eqb_neq. now apply Hrows.
Qed.

End Facts.

Lemma plot_forecast_series_witness :
  exists first connect p10s p50s p90s dates,
    hd_error (filter (fun r => timestamp r =? snd PlotStub.training_data_period)
                     (rows_of_item PlotStub.df_tts "item_132")) = Some first /\
    PlotStub.strptime (timestamp first) "%Y-%m-%d" = Returns connect /\
    PlotStub.predictions "p10" = Some p10s /\
    PlotStub.predictions "p50" = Some p50s /\
    PlotStub.predictions "p90" = Some p90s /\
    map (fun p => PlotStub.strptime (Timestamp p) "%Y-%m-%dT00:00:00")
        (firstn (shortest p10s p50s p90s) p50s) = map Returns dates /\
    x PlotStub.plotted = OfDatetime connect :: map OfDate dates /\
    y_p10 PlotStub.plotted =
      demand first :: map Value (firstn (shortest p10s p50s p90s) p10s) /\
    y_p50 PlotStub.plotted =
      demand first :: map Value (firstn (shortest p10s p50s p90s) p50s) /\
    y_p90 PlotStub.plotted =
      demand first :: map Value (firstn (shortest p10s p50s p90s) p90s) /\
    length (x PlotStub.plotted) = S (shortest p10s p50s p90s) /\
    length (y_p10 PlotStub.plotted) = S (shortest p10s p50s p90s) /\
    length (y_p50 PlotStub.plotted) = S (shortest p10s p50s p90s) /\
    length (y_p90 PlotStub.plotted) = S (shortest p10s p50s p90s).
Proof.
  apply (plot_forecast_series PlotStub.strptime
           (rows_of_item PlotStub.df_tts "item_132")
           PlotStub.training_data_period PlotStub.predictions PlotStub.plotted).
  reflexivity.
Defined.

Lemma plot_forecast_ignores_witness :
  plot_forecast PlotStub.strptime (rows_of_item PlotStub.df_tts "item_132")
                PlotStub.training_data_period PlotStub.predictions =
  plot_forecast PlotStub.strptime (rows_of_item PlotStub.df_tts "item_132")
                PlotStub.training_data_period PlotStub.predictions'.
Proof.
  apply (plot_forecast_ignores PlotStub.strptime
           (rows_of_item PlotStub.df_tts "item_132")
           PlotStub.training_data_period
           PlotStub.predictions PlotStub.predictions'
           [mkPrediction "2020-01-01T00:00:00" 5%Z;
            mkPrediction "2020-02-01T00:00:00" 6%Z]
           [mkPrediction "2020-01-01T00:00:00" 8%Z;
            mkPrediction "2020-02-01T00:00:00" 9%Z;
            mkPrediction "" 10%Z]
           [mkPrediction "2020-01-01T00:00:00" 11%Z;
            mkPrediction "2020-02-01T00:00:00" 12%Z]
           [mkPrediction "" 5%Z; mkPrediction "" 6%Z]
           [mkPrediction "x" 11%Z; mkPrediction "y" 12%Z]);
    reflexivity.
Defined.

Lemma item_without_last_row_witness :
  plot_forecast PlotStub.strptime (rows_of_item PlotStub.df_tts "item_234")
                PlotStub.training_data_period PlotStub.predictions
    = Raises KeyError.
Proof.
  apply (item_without_last_row PlotStub.strptime PlotStub.df_tts "item_234"
           PlotStub.training_data_period PlotStub.predictions).
  intros r Hin Hitem. simpl in Hin.
  destruct Hin as [<-|[<-|[<-|[<-|[]]]]]; simpl in *; discriminate.
Defined.

End PlotFacts.

(** ** The item check *)

Module ItemCheckFacts.
Import ItemCheck.

Lemma no_difference (a b : list string) :
  length (difference a b) = 0%nat <-> (forall i, In i a -> In i b).
Proof.
  unfold difference. induction a as [|i a IH]; simpl.
  - split; [contradiction|reflexivity].
  - destruct (existsb (String.eqb i) b) eqn:Hin; simpl.
    + apply existsb_exists in Hin. destruct Hin as (j & Hj & Hij).
      apply String.eqb_eq in Hij. subst j. rewrite IH.
      split; [intros Hall k [<-|Hk]; auto|intros Hall k Hk; apply Hall; now right].
    + split; [discriminate|]. intros Hall. exfalso.
      assert (Hib : In i b) by (apply Hall; now left).
      assert (Htrue : existsb (String.eqb i) b = true).
      { apply existsb_exists. exists i. split; trivial. apply String.eqb_refl. }
      congruence.
Qed.

(** X17.  The item check is one-sided.  It passes exactly when every item
    of the time series has an entry in the item metadata, however often and
    in whatever order the items occur; items that occur in the metadata
    only do not make it fail, whatever the message 'items do not match'
    suggests. *)
Theorem check_items_is_inclusion (time_series_items item_metadata_items : list string) :
  check_items time_series_items item_metadata_items = Done tt <->
  (forall i, In i time_series_items -> In i item_metadata_items).
Proof.
  unfold check_items, set_of.
  destruct (Nat.eqb_spec
              (length (difference (nodup string_dec time_series_items)
                                  (nodup string_dec item_metadata_items))) 0)
    as [Hz|Hnz].
  - pose proof (proj1 (no_difference _ _) Hz) as Hincl. split; [|reflexivity].
    intros _ i Hi. apply (nodup_In string_dec). apply Hincl.
    exact (proj2 (nodup_In string_dec _ _) Hi).
  - split; [discriminate|]. intros Hall. exfalso. apply Hnz.
    apply (proj2 (no_difference _ _)). intros i Hi. apply nodup_In. apply Hall.
    exact (proj1 (nodup_In string_dec _ _) Hi).
Qed.

Lemma check_items_is_inclusion_witness :
  check_items ["a"; "b"; "a"] ["c"; "b"; "a"] = Done tt.
Proof.
  apply (check_items_is_inclusion ["a"; "b"; "a"] ["c"; "b"; "a"]).
  intros i [<-|[<-|[<-|[]]]]; simpl; tauto.
Defined.

End ItemCheckFacts.

(** ** The names of the what-if notebook *)

Module WhatIfNamesFacts.
Import WhatIfNames.

Lemma append_cancel (p a b : string) :
  (p ++ a)%string = (p ++ b)%string -> a = b.
Proof.
  induction p as [|ch p IH]; simpl; [trivial|].
  intros Heq. inversion Heq. now apply IH.
Qed.

Lemma NoDup_prefixed (p : string) (l : list string) :
  NoDup l -> NoDup (map (String.append p) l).
Proof.
  induction 1 as [|a l Hnotin Hl IH]; simpl; constructor; trivial.
  intros Hin. apply in_map_iff in Hin. destruct Hin as (b & Heq & Hb).
  apply append_cancel in Heq. now subst b.
Qed.

(** X18.  Whatever [version] is set to, the nine resources of the what-if
    notebook get nine different names, and the two CSV files go to two
    different keys and so to two different S3 paths in any bucket: no
    create call can fail, and no upload can overwrite the other, because of
    a name the notebook itself has used. *)
Theorem names_never_collide (version : string) :
  NoDup (map (name_of version) WhatIf.created) /\
  key_tts version <> key_rts version /\
  (forall bucket_name,
      s3_data_path bucket_name (key_tts version) <>
      s3_data_path bucket_name (key_rts version)).
Proof.
  split; [|split].
  - unfold name_of.
    rewrite <- (map_map suffix (String.append (project version))).
    apply NoDup_prefixed. simpl.
    repeat (constructor; [simpl; intuition discriminate|]). constructor.
  - unfold key_tts, key_rts. intros Heq. apply append_cancel in Heq.
    discriminate.
  - intros bucket_name. unfold s3_data_path, key_tts, key_rts. intros Heq.
    do 4 apply append_cancel in Heq. discriminate.
Qed.

End WhatIfNamesFacts.
